(** * The cart store of [cart/dao.py]

    A shallow embedding of the cart persistence layer: the SQLite file
    [carts.db] with its single table [carts], the connection decorator
    [with_connection], and the four operations [get_cart], [add_to_cart],
    [remove_from_cart] and [delete_cart], followed by the properties the
    specification states about them.

    Layout:
    - [Python values and JSON text]: the values [json.loads] produces, a
      tokeniser and a pushdown parser for JSON text, and the printer
      [json.dumps];
    - [SQLite]: the table, the statements the operations execute,
      connections and the file;
    - [The DAO]: the operations, written in a state-and-exception monad;
    - the theorems.

    What the model leaves out:
    - failures of the storage: I/O errors, a full disk, the bound
      2^63 - 1 on rowids, a file [carts.db] that exists without the table
      (the code creates the table whenever it creates the file);
    - limits of the interpreter: the recursion depth of the JSON decoder
      and the bound on the digits of an [int] converted to or from text
      that Python 3.11 introduced;
    - the numeric value of a [float], see [pyval];
    - text outside Latin-1: a [string] here is a sequence of 8-bit
      characters, each read as a code point (usernames are only compared
      for equality); the column [contents] holds TEXT, never NULL or a
      BLOB;
    - concurrent callers: calls run one after the other. *)

From Stdlib Require Import ZArith NArith String Ascii Bool List Lia.
From Stdlib Require Import DecimalString DecimalZ DecimalPos DecimalN DecimalFacts.
From stdpp Require Import base option list gmap strings.

Local Open Scope Z_scope.
#[local] Set Warnings "-register-all".
#[local] Arguments String.append !s1 s2 : simpl nomatch.

(** ** Python values and JSON text *)

(** The Python values [json.loads] can produce.  A [str] is a sequence of
    code points.  A [float] is kept as the literal it was read from: its
    numeric value is floating point and stays outside the development,
    which is parametric in how floats print and compare (see
    [float_repr] and [float_eq_int] below).  A [dict] keeps its entries in
    insertion order, as Python does. *)
Inductive pyval : Type :=
| PNone
| PBool (b : bool)
| PInt (z : Z)
| PFloat (lexeme : string)
| PStr (s : list N)
| PList (items : list pyval)
| PDict (entries : list (list N * pyval)).

(** Characters that cannot be written inside a string literal here. *)
Definition dquote : ascii := "034"%char.
Definition backslash : ascii := "092"%char.
Definition char_tab : ascii := "009"%char.
Definition char_lf : ascii := "010"%char.
Definition char_cr : ascii := "013"%char.

Definition str1 (c : ascii) : string := String c EmptyString.

(** [s + c] for a string and a character. *)
Definition snoc (s : string) (c : ascii) : string := String.append s (str1 c).

Definition is_digit (c : ascii) : bool :=
  let n := nat_of_ascii c in (48 <=? n)%nat && (n <=? 57)%nat.

(** The whitespace [json.decoder.WHITESPACE] skips: [ \t\n\r]. *)
Definition is_ws (c : ascii) : bool :=
  Ascii.eqb c " " || Ascii.eqb c char_tab || Ascii.eqb c char_lf || Ascii.eqb c char_cr.

(** Characters that can continue a number literal. *)
Definition is_numchar (c : ascii) : bool :=
  is_digit c || Ascii.eqb c "-" || Ascii.eqb c "+" || Ascii.eqb c "."
  || Ascii.eqb c "e" || Ascii.eqb c "E".

(** *** Number literals

    [json.scanner.NUMBER_RE] reads an optional minus sign, then either a
    single 0 or a non-zero digit followed by any digits, then an optional
    fraction (a dot and at least one digit), then an optional exponent
    (e or E, an optional sign and at least one digit); a literal with
    neither fraction nor exponent is an [int], any other a [float]. *)

Fixpoint span_digits (s : string) : string * string :=
  match s with
  | String c s' =>
      if is_digit c then let '(d, r) := span_digits s' in (String c d, r)
      else (EmptyString, s)
  | EmptyString => (EmptyString, EmptyString)
  end.

(** The integer part: a single 0, or digits that do not start with 0. *)
Definition int_digits_ok (d : string) : bool :=
  match d with
  | EmptyString => false
  | String c EmptyString => true
  | String c _ => negb (Ascii.eqb c "0")
  end.

Definition nonempty (s : string) : bool :=
  match s with EmptyString => false | _ => true end.

(** An optional exponent, followed by the end of the literal. *)
Definition exponent_ok (s : string) : bool :=
  match s with
  | EmptyString => true
  | String c s1 =>
      if Ascii.eqb c "e" || Ascii.eqb c "E" then
        let s2 := match s1 with
                  | String sg s2 =>
                      if Ascii.eqb sg "-" || Ascii.eqb sg "+" then s2 else s1
                  | EmptyString => s1
                  end in
        let '(d, r) := span_digits s2 in
        nonempty d && negb (nonempty r)
      else false
  end.

(** [int(lexeme)] for a lexeme of the integer form. *)
Definition int_of_lexeme (lexeme : string) : option Z :=
  Z.of_int <$> NilZero.int_of_string lexeme.

(** The value of a complete number literal, [None] when the text is not
    one. *)
Definition number_value (lexeme : string) : option pyval :=
  let body := match lexeme with
              | String c s => if Ascii.eqb c "-" then s else lexeme
              | EmptyString => lexeme
              end in
  let '(ip, r1) := span_digits body in
  if negb (int_digits_ok ip) then None
  else match r1 with
       | EmptyString => PInt <$> int_of_lexeme lexeme
       | String c r2 =>
           if Ascii.eqb c "." then
             let '(fp, r3) := span_digits r2 in
             if nonempty fp && exponent_ok r3 then Some (PFloat lexeme) else None
           else if exponent_ok r1 then Some (PFloat lexeme) else None
       end.

(** *** String literals *)

Definition hex_digit (c : ascii) : option N :=
  let n := N_of_ascii c in
  if (48 <=? n)%N && (n <=? 57)%N then Some (n - 48)%N
  else if (97 <=? n)%N && (n <=? 102)%N then Some (n - 87)%N
  else if (65 <=? n)%N && (n <=? 70)%N then Some (n - 55)%N
  else None.

Definition hex4 (a b c d : ascii) : option N :=
  x1 ← hex_digit a; x2 ← hex_digit b; x3 ← hex_digit c; x4 ← hex_digit d;
  Some (((x1 * 16 + x2) * 16 + x3) * 16 + x4)%N.

Definition is_high_surrogate (u : N) : bool := (55296 <=? u)%N && (u <=? 56319)%N.
Definition is_low_surrogate (u : N) : bool := (56320 <=? u)%N && (u <=? 57343)%N.

Definition join_surrogates (hi lo : N) : N :=
  (65536 + N.lor (N.shiftl (hi - 55296) 10) (lo - 56320))%N.

(** The one-character escapes of [json.decoder.BACKSLASH]. *)
Definition simple_escape (c : ascii) : option N :=
  if Ascii.eqb c dquote then Some 34%N
  else if Ascii.eqb c backslash then Some 92%N
  else if Ascii.eqb c "/" then Some 47%N
  else if Ascii.eqb c "b" then Some 8%N
  else if Ascii.eqb c "f" then Some 12%N
  else if Ascii.eqb c "n" then Some 10%N
  else if Ascii.eqb c "r" then Some 13%N
  else if Ascii.eqb c "t" then Some 9%N
  else None.

(** [scanstring] on the text between the quotes (strict mode): control
    characters are refused, escapes are decoded, and a high surrogate
    escape directly followed by a low surrogate escape is joined. *)
Fixpoint unescape (s : string) : option (list N) :=
  match s with
  | EmptyString => Some []
  | String c s1 =>
      if Ascii.eqb c backslash then
        match s1 with
        | EmptyString => None
        | String e s2 =>
            if Ascii.eqb e "u" then
              match s2 with
              | String h1 (String h2 (String h3 (String h4 s3))) =>
                  match hex4 h1 h2 h3 h4 with
                  | None => None
                  | Some uni =>
                      if is_high_surrogate uni then
                        match s3 with
                        | String b' (String u' (String g1 (String g2 (String g3 (String g4 s4))))) =>
                            if Ascii.eqb b' backslash && Ascii.eqb u' "u" then
                              match hex4 g1 g2 g3 g4 with
                              | None => None
                              | Some uni2 =>
                                  if is_low_surrogate uni2
                                  then cons (join_surrogates uni uni2) <$> unescape s4
                                  else cons uni <$> unescape s3
                              end
                            else cons uni <$> unescape s3
                        | _ => cons uni <$> unescape s3
                        end
                      else cons uni <$> unescape s3
                  end
              | _ => None
              end
            else
              match simple_escape e with
              | Some u => cons u <$> unescape s2
              | None => None
              end
        end
      else if (N_of_ascii c <? 32)%N then None
      else cons (N_of_ascii c) <$> unescape s1
  end.

(** *** Tokens *)

Inductive token : Type :=
| TLBrace | TRBrace | TLBrack | TRBrack | TComma | TColon
| TLit (v : pyval).   (* null, true, false, a number or a string *)

Inductive lstate : Type :=
| LStart                              (* between tokens *)
| LNum (lexeme : string)              (* inside a number literal *)
| LStr (raw : string)                 (* inside a string literal *)
| LEsc (raw : string)                 (* just after a backslash in a string *)
| LKw (rest : string) (v : pyval).    (* inside null, true, false, NaN, Infinity *)

Definition start_step (c : ascii) : option (list token * lstate) :=
  if is_ws c then Some ([], LStart)
  else if Ascii.eqb c "{" then Some ([TLBrace], LStart)
  else if Ascii.eqb c "}" then Some ([TRBrace], LStart)
  else if Ascii.eqb c "[" then Some ([TLBrack], LStart)
  else if Ascii.eqb c "]" then Some ([TRBrack], LStart)
  else if Ascii.eqb c "," then Some ([TComma], LStart)
  else if Ascii.eqb c ":" then Some ([TColon], LStart)
  else if Ascii.eqb c dquote then Some ([], LStr EmptyString)
  else if Ascii.eqb c "n" then Some ([], LKw "ull" PNone)
  else if Ascii.eqb c "t" then Some ([], LKw "rue" (PBool true))
  else if Ascii.eqb c "f" then Some ([], LKw "alse" (PBool false))
  else if Ascii.eqb c "N" then Some ([], LKw "aN" (PFloat "NaN"))
  else if Ascii.eqb c "I" then Some ([], LKw "nfinity" (PFloat "Infinity"))
  else if is_digit c || Ascii.eqb c "-" then Some ([], LNum (str1 c))
  else None.

Definition lex_step (st : lstate) (c : ascii) : option (list token * lstate) :=
  match st with
  | LStart => start_step c
  | LNum lexeme =>
      if is_numchar c then Some ([], LNum (snoc lexeme c))
      else if String.eqb lexeme "-" && Ascii.eqb c "I"
      then Some ([], LKw "nfinity" (PFloat "-Infinity"))
      else
        v ← number_value lexeme;
        '(ts, st') ← start_step c;
        Some (TLit v :: ts, st')
  | LStr raw =>
      if Ascii.eqb c dquote then
        s ← unescape raw; Some ([TLit (PStr s)], LStart)
      else if Ascii.eqb c backslash then Some ([], LEsc (snoc raw c))
      else Some ([], LStr (snoc raw c))
  | LEsc raw => Some ([], LStr (snoc raw c))
  | LKw rest v =>
      match rest with
      | String k rest' =>
          if Ascii.eqb c k then
            match rest' with
            | EmptyString => Some ([TLit v], LStart)
            | _ => Some ([], LKw rest' v)
            end
          else None
      | EmptyString => None
      end
  end.

Definition lex_eof (st : lstate) : option (list token) :=
  match st with
  | LStart => Some []
  | LNum lexeme => v ← number_value lexeme; Some [TLit v]
  | _ => None
  end.

Fixpoint lex (st : lstate) (s : string) : option (list token) :=
  match s with
  | EmptyString => lex_eof st
  | String c s' =>
      '(ts, st') ← lex_step st c;
      rest ← lex st' s';
      Some (ts ++ rest)
  end.

(** *** The parser

    A pushdown automaton over the tokens.  The stack holds the containers
    that are still open; it accepts the texts [json.decoder]'s recursive
    descent accepts and builds the same values. *)

Inductive frame : Type :=
| FArr (items : list pyval)                        (* an open array *)
| FObj (entries : list (list N * pyval))           (* an open object *)
| FKey (entries : list (list N * pyval)) (key : list N).  (* ... with a key read *)

Inductive expect : Type :=
| EValue          (* a value *)
| EValueOrClose   (* just after an opening bracket: a value or the closing one *)
| EKeyOrClose     (* just after an opening brace: a key or the closing one *)
| EKey            (* after a comma in an object: a key *)
| EColon          (* after a key *)
| ESep.           (* after a value in a container: a comma or the closer *)

Inductive pstate : Type :=
| PRun (stack : list frame) (e : expect)
| PDone (v : pyval).

Definition codepoints_eqb (a b : list N) : bool := bool_decide (a = b).

(** [d[k] = v] on a dict: an existing key keeps its place. *)
Fixpoint dict_set (k : list N) (v : pyval) (d : list (list N * pyval))
  : list (list N * pyval) :=
  match d with
  | [] => [(k, v)]
  | (k', v') :: d' =>
      if codepoints_eqb k k' then (k', v) :: d' else (k', v') :: dict_set k v d'
  end.

(** A complete value goes to the innermost open container. *)
Definition put_value (v : pyval) (stack : list frame) : option pstate :=
  match stack with
  | [] => Some (PDone v)
  | FArr items :: st => Some (PRun (FArr (items ++ [v]) :: st) ESep)
  | FKey entries k :: st => Some (PRun (FObj (dict_set k v entries) :: st) ESep)
  | FObj _ :: _ => None
  end.

Definition close_array (stack : list frame) : option pstate :=
  match stack with
  | FArr items :: st => put_value (PList items) st
  | _ => None
  end.

Definition close_object (stack : list frame) : option pstate :=
  match stack with
  | FObj entries :: st => put_value (PDict entries) st
  | _ => None
  end.

Definition read_key (t : token) (stack : list frame) : option pstate :=
  match t, stack with
  | TLit (PStr k), FObj entries :: st => Some (PRun (FKey entries k :: st) EColon)
  | _, _ => None
  end.

Definition read_value (t : token) (stack : list frame) : option pstate :=
  match t with
  | TLit v => put_value v stack
  | TLBrack => Some (PRun (FArr [] :: stack) EValueOrClose)
  | TLBrace => Some (PRun (FObj [] :: stack) EKeyOrClose)
  | _ => None
  end.

Definition parse_step (st : pstate) (t : token) : option pstate :=
  match st with
  | PDone _ => None
  | PRun stack e =>
      match e, t with
      | EValueOrClose, TRBrack => close_array stack
      | (EValue | EValueOrClose), _ => read_value t stack
      | EKeyOrClose, TRBrace => close_object stack
      | (EKeyOrClose | EKey), _ => read_key t stack
      | EColon, TColon => Some (PRun stack EValue)
      | ESep, TComma =>
          match stack with
          | FArr _ :: _ => Some (PRun stack EValue)
          | FObj _ :: _ => Some (PRun stack EKey)
          | _ => None
          end
      | ESep, TRBrack => close_array stack
      | ESep, TRBrace => close_object stack
      | _, _ => None
      end
  end.

Fixpoint parse (st : pstate) (ts : list token) : option pstate :=
  match ts with
  | [] => Some st
  | t :: ts' => st' ← parse_step st t; parse st' ts'
  end.

(** [json.loads(s)]: [None] stands for the [JSONDecodeError] it raises. *)
Definition json_loads (s : string) : option pyval :=
  ts ← lex LStart s;
  st ← parse (PRun [] EValue) ts;
  match st with
  | PDone v => Some v
  | PRun _ _ => None
  end.

(** *** The printer *)

Definition hex_char (n : N) : ascii :=
  if (n <? 10)%N then ascii_of_N (48 + n) else ascii_of_N (87 + n).

(** [\uXXXX] for a code point below 0x10000. *)
Definition escape_u (u : N) : string :=
  String backslash (String "u"
    (String (hex_char (N.land (N.shiftr u 12) 15))
    (String (hex_char (N.land (N.shiftr u 8) 15))
    (String (hex_char (N.land (N.shiftr u 4) 15))
    (String (hex_char (N.land u 15)) EmptyString))))).

(** One character of [json.encoder.py_encode_basestring_ascii]. *)
Definition escape_char (u : N) : string :=
  if (u =? 34)%N then String backslash (str1 dquote)
  else if (u =? 92)%N then String backslash (str1 backslash)
  else if (u =? 10)%N then String backslash "n"
  else if (u =? 13)%N then String backslash "r"
  else if (u =? 9)%N then String backslash "t"
  else if (u =? 12)%N then String backslash "f"
  else if (u =? 8)%N then String backslash "b"
  else if (32 <=? u)%N && (u <=? 126)%N then str1 (ascii_of_N u)
  else if (u <? 65536)%N then escape_u u
  else
    let v := (u - 65536)%N in
    String.append (escape_u (N.lor 55296 (N.land (N.shiftr v 10) 1023)))
                  (escape_u (N.lor 56320 (N.land v 1023))).

Definition encode_str (s : list N) : string :=
  String dquote (String.append (String.concat EmptyString (map escape_char s)) (str1 dquote)).

(** [int.__repr__] *)
Definition encode_int (z : Z) : string := NilZero.string_of_int (Z.to_int z).

Section Floats.

(** [float.__repr__] and [int.__eq__] against a float, on the literal
    the float was read from.  Both are floating point and are left
    uninterpreted. *)
Variable float_repr : string -> string.
Variable float_eq_int : Z -> string -> bool.

(** [json.dumps(v)] with the default separators and [ensure_ascii]. *)
Fixpoint json_dumps (v : pyval) : string :=
  match v with
  | PNone => "null"
  | PBool true => "true"
  | PBool false => "false"
  | PInt z => encode_int z
  | PFloat lexeme => float_repr lexeme
  | PStr s => encode_str s
  | PList items =>
      String.append "[" (String.append (String.concat ", " (map json_dumps items)) "]")
  | PDict entries =>
      String.append "{"
        (String.append
           (String.concat ", "
              (map (fun kv => String.append (encode_str (fst kv))
                                (String.append ": " (json_dumps (snd kv)))) entries))
           "}")
  end.

End Floats.

(** ** SQLite *)

(** A row of [carts]; the table is keyed by [username], which the schema
    declares [NOT NULL UNIQUE], so the row does not repeat it.  [cost] has
    REAL affinity; the only value bound to it is the integer 0. *)
Record row : Type := Row {
  cart_id : Z;          (* id INTEGER PRIMARY KEY AUTOINCREMENT *)
  contents : string;    (* contents TEXT DEFAULT '[]' *)
  cost : Z              (* cost REAL DEFAULT 0 *)
}.

(** A database file with the schema of [create_tables]: the table and the
    counter [sqlite_sequence] keeps for its AUTOINCREMENT key. *)
Record database : Type := Database {
  carts : gmap string row;
  seq : Z
}.

(** The database just after [CREATE TABLE]. *)
Definition empty_db : database := {| carts := ∅; seq := 0 |}.

Definition rowids (t : gmap string row) : list Z :=
  (fun kv => cart_id (snd kv)) <$> map_to_list t.

(** The key an AUTOINCREMENT insert picks: one more than the largest
    rowid in the table (1 in an empty table) and never below one more than
    the counter.  (SQLite stops at 2^63 - 1 with SQLITE_FULL; like a full
    disk, that is not modelled.) *)
Definition new_rowid (db : database) : Z :=
  Z.max (match rowids (carts db) with
         | [] => 1
         | i :: ids => foldr Z.max i ids + 1
         end)
        (seq db + 1).

(** [SELECT ... FROM carts WHERE username = ?] *)
Definition sql_select (username : string) (db : database) : list row :=
  option_list (carts db !! username).

(** [INSERT OR REPLACE INTO carts (username, contents, cost) VALUES (?, ?, ?)]:
    the new row gets a new id, picked while the old row is still in the
    table; the row with the same username is deleted, the new one
    inserted, and the counter moves to the new id. *)
Definition sql_insert_or_replace (username : string) (c : string) (k : Z)
    (db : database) : database :=
  let i := new_rowid db in
  {| carts := <[username := Row i c k]> (delete username (carts db));
     seq := i |}.

(** [DELETE FROM carts WHERE username = ?] *)
Definition sql_delete (username : string) (db : database) : database :=
  {| carts := delete username (carts db); seq := seq db |}.

(** A connection object.  [view] is the database as the connection sees
    it, uncommitted changes included; it is [None] on a file that has no
    schema yet. *)
Record connection : Type := Connection {
  view : option database;
  closed : bool
}.

(** The world the operations run in: the file [carts.db] ([None] while it
    does not exist) and every connection object created so far.  A
    connection is referred to by its index in [conns]. *)
Record world : Type := World {
  file : option database;
  conns : list connection
}.

(** ** The DAO *)

Inductive exn : Type :=
| JSONDecodeError | AttributeError | TypeError | ValueError
| OperationalError | ProgrammingError.

Inductive outcome (A : Type) : Type :=
| Returned (a : A)
| Raised (e : exn).
Arguments Returned {A} a.
Arguments Raised {A} e.

(** Computations that read and write the world and may raise. *)
Definition M (A : Type) : Type := world -> outcome A * world.

#[export] Instance M_ret : MRet M := fun A a w => (Returned a, w).
#[export] Instance M_bind : MBind M := fun A B f m w =>
  match m w with
  | (Returned a, w') => f a w'
  | (Raised e, w') => (Raised e, w')
  end.

Definition raise {A} (e : exn) : M A := fun w => (Raised e, w).

(** [try: body finally: fin] *)
Definition try_finally {A} (body : M A) (fin : M unit) : M A := fun w =>
  let '(r, w1) := body w in
  match fin w1 with
  | (Returned _, w2) => (r, w2)
  | (Raised e, w2) => (Raised e, w2)
  end.

(** *** The [sqlite3] and [os] calls *)

Definition os_path_exists : M bool := fun w =>
  (Returned (bool_decide (is_Some (file w))), w).

(** [sqlite3.connect(path)] *)
Definition sqlite3_connect : M nat := fun w =>
  (Returned (length (conns w)),
   {| file := file w;
      conns := conns w ++ [{| view := file w; closed := false |}] |}).

(** An open connection, by its index. *)
Definition the_conn (conn : nat) : M connection := fun w =>
  match conns w !! conn with
  | Some c => if closed c then (Raised ProgrammingError, w) else (Returned c, w)
  | None => (Raised ProgrammingError, w)
  end.

Definition set_view (conn : nat) (v : option database) : M unit := fun w =>
  (Returned tt,
   {| file := file w;
      conns := <[conn := {| view := v; closed := false |}]> (conns w) |}).

(** A statement on the table: it fails on a file without schema. *)
Definition the_db (conn : nat) : M database :=
  c ← the_conn conn;
  match view c with
  | Some db => mret db
  | None => raise OperationalError
  end.

(** [conn.execute('CREATE TABLE IF NOT EXISTS carts ...')] *)
Definition execute_create_table (conn : nat) : M unit :=
  c ← the_conn conn;
  set_view conn (Some (default empty_db (view c))).

(** [cursor.execute('SELECT ...', (username,))]: the rows of the cursor. *)
Definition execute_select (conn : nat) (username : string) : M (list row) :=
  db ← the_db conn; mret (sql_select username db).

(** [cursor.fetchone()] *)
Definition fetchone (rows : list row) : option row := head rows.

Definition execute_insert_or_replace (conn : nat) (username c : string) (k : Z)
  : M unit :=
  db ← the_db conn; set_view conn (Some (sql_insert_or_replace username c k db)).

Definition execute_delete (conn : nat) (username : string) : M unit :=
  db ← the_db conn; set_view conn (Some (sql_delete username db)).

(** Committed changes reach the file. *)
Definition write_file (v : option database) : M unit := fun w =>
  (Returned tt,
   {| file := match v with Some db => Some db | None => file w end;
      conns := conns w |}).

(** [conn.commit()] *)
Definition commit (conn : nat) : M unit :=
  c ← the_conn conn; write_file (view c).

(** [conn.close()]: what was not committed is lost with the object. *)
Definition close (conn : nat) : M unit := fun w =>
  (Returned tt,
   {| file := file w;
      conns := match conns w !! conn with
               | Some c => <[conn := {| view := view c; closed := true |}]> (conns w)
               | None => conns w
               end |}).

(** *** [dao.py] *)

(** Create the table if it does not exist. *)
Definition create_tables (conn : nat) : M unit :=
  execute_create_table conn;;
  commit conn.

(** [connect('carts.db')]; the world holds that one file. *)
Definition connect : M nat :=
  exists_ ← os_path_exists;
  conn ← sqlite3_connect;
  if negb exists_ then create_tables conn;; mret conn else mret conn.

(** The decorator: the wrapped function receives a connection of its own,
    closed in a [finally] clause. *)
Definition with_connection {A} (func : nat -> M A) : M A :=
  conn ← connect;
  result ← try_finally (func conn) (close conn);
  mret result.

Definition loads (s : string) : M pyval :=
  match json_loads s with
  | Some v => mret v
  | None => raise JSONDecodeError
  end.

(** [contents.append(product_id)] *)
Definition py_append (v : pyval) (product_id : Z) : M pyval :=
  match v with
  | PList items => mret (PList (items ++ [PInt product_id]))
  | _ => raise AttributeError
  end.

Section Dao.

Variable float_repr : string -> string.
Variable float_eq_int : Z -> string -> bool.

(** [product_id == x] for an [int] on the left. *)
Definition py_eq_int (product_id : Z) (x : pyval) : bool :=
  match x with
  | PInt z => product_id =? z
  | PBool b => product_id =? (if b then 1 else 0)
  | PFloat lexeme => float_eq_int product_id lexeme
  | _ => false
  end.

(** [product_id in contents] *)
Definition py_contains (product_id : Z) (v : pyval) : M bool :=
  match v with
  | PList items => mret (existsb (py_eq_int product_id) items)
  | PDict _ => mret false        (* the keys are strings *)
  | _ => raise TypeError
  end.

Fixpoint list_remove (product_id : Z) (items : list pyval) : option (list pyval) :=
  match items with
  | [] => None
  | x :: items' =>
      if py_eq_int product_id x then Some items'
      else cons x <$> list_remove product_id items'
  end.

(** [contents.remove(product_id)] *)
Definition py_remove (v : pyval) (product_id : Z) : M pyval :=
  match v with
  | PList items =>
      match list_remove product_id items with
      | Some items' => mret (PList items')
      | None => raise ValueError
      end
  | _ => raise AttributeError
  end.

Definition get_cart_body (conn : nat) (username : string) : M pyval :=
  cursor ← execute_select conn username;
  let cart := fetchone cursor in
  match cart with
  | None => mret (PList [])
  | Some r => loads (contents r)
  end.

Definition get_cart (username : string) : M pyval :=
  with_connection (fun conn => get_cart_body conn username).

Definition add_to_cart_body (conn : nat) (username : string) (product_id : Z)
  : M unit :=
  cursor ← execute_select conn username;
  let r := fetchone cursor in
  old ← match r with
        | Some r => loads (contents r)
        | None => mret (PList [])
        end;
  new ← py_append old product_id;
  execute_insert_or_replace conn username (json_dumps float_repr new) 0;;
  commit conn.

Definition add_to_cart (username : string) (product_id : Z) : M unit :=
  with_connection (fun conn => add_to_cart_body conn username product_id).

Definition remove_from_cart_body (conn : nat) (username : string) (product_id : Z)
  : M unit :=
  cursor ← execute_select conn username;
  let r := fetchone cursor in
  match r with
  | None => mret tt
  | Some r =>
      old ← loads (contents r);
      found ← py_contains product_id old;
      if found : bool then
        new ← py_remove old product_id;
        execute_insert_or_replace conn username (json_dumps float_repr new) 0;;
        commit conn
      else mret tt
  end.

Definition remove_from_cart (username : string) (product_id : Z) : M unit :=
  with_connection (fun conn => remove_from_cart_body conn username product_id).

Definition delete_cart_body (conn : nat) (username : string) : M unit :=
  execute_delete conn username;;
  commit conn.

Definition delete_cart (username : string) : M unit :=
  with_connection (fun conn => delete_cart_body conn username).

End Dao.

(** ** Vocabulary of the specification *)

(** The stored state: the database in [carts.db].  A file that does not
    exist yet holds no row, and [connect] creates it with the schema
    before any statement runs. *)
Definition stored (w : world) : database := default empty_db (file w).

(** The row stored for a username, if any. *)
Definition cart_row (w : world) (username : string) : option row :=
  carts (stored w) !! username.

(** The world before the first call: no file, no connection. *)
Definition initial_world : world := {| file := None; conns := [] |}.

(** The world an operation leaves: the file holds [db], and the connection
    the operation opened is last in [conns], closed. *)
Definition finish (w : world) (db : database) : world :=
  {| file := Some db;
     conns := conns w ++ [{| view := Some db; closed := true |}] |}.

(** The world during a call: after the connections [cs] made before it,
    the connection of the call, open, with view [v]. *)
Definition opened (cs : list connection) (f : option database)
    (v : option database) : world :=
  {| file := f; conns := cs ++ [{| view := v; closed := false |}] |}.

(** A Python list of [int]s. *)
Definition int_list (l : list Z) : pyval := PList (PInt <$> l).

Section Runs.

Variable float_repr : string -> string.
Variable float_eq_int : Z -> string -> bool.

(** [add_to_cart(u, p)] for each [p] of a sequence, in order. *)
Fixpoint add_all (username : string) (ps : list Z) : M unit :=
  match ps with
  | [] => mret tt
  | p :: ps' => add_to_cart float_repr username p;; add_all username ps'
  end.

(** A call of one of the four operations. *)
Inductive call : Type :=
| GetCart (username : string)
| AddToCart (username : string) (product_id : Z)
| RemoveFromCart (username : string) (product_id : Z)
| DeleteCart (username : string).

(** The world after a call, whether it returned or raised. *)
Definition after (c : call) (w : world) : world :=
  match c with
  | GetCart u => snd (get_cart u w)
  | AddToCart u p => snd (add_to_cart float_repr u p w)
  | RemoveFromCart u p => snd (remove_from_cart float_repr float_eq_int u p w)
  | DeleteCart u => snd (delete_cart u w)
  end.

(** The worlds a sequence of calls can lead to from the first one. *)
Inductive reachable : world -> Prop :=
| reachable_initial : reachable initial_world
| reachable_call w c : reachable w -> reachable (after c w).

End Runs.

(** Instances of the float parameters for closed examples: no example
    below holds a float. *)
Definition repr_lexeme (lexeme : string) : string := lexeme.
Definition never_eq (z : Z) (lexeme : string) : bool := false.

(** The row of a user holds the list [l]; a user without row holds the
    empty list. *)
Definition holds (float_repr : string -> string) (w : world)
    (username : string) (l : list Z) : Prop :=
  match cart_row w username with
  | None => l = []
  | Some r => contents r = json_dumps float_repr (int_list l)
  end.

(** A text that does not decode to a JSON array of integers. *)
Definition not_int_array (c : string) : Prop :=
  forall l, json_loads c <> Some (int_list l).

(** A world whose file holds one cart, with the contents [c]. *)
Definition one_cart (username c : string) : world :=
  {| file := Some {| carts := {[ username := Row 1 c 0 ]}; seq := 1 |};
     conns := [] |}.

(** The JSON text of an array that holds the string a, and its value. *)
Definition text_str_array : string :=
  String "[" (String dquote (String "a" (String dquote "]"))).
Definition str_array : pyval := PList [PStr [97%N]].

(** ** Further vocabulary *)

(** What the operations read as the cart of a user: the empty list when
    there is no row, the decoded contents otherwise, [None] when the
    contents are not JSON text. *)
Definition cart_value (w : world) (username : string) : option pyval :=
  match cart_row w username with
  | None => Some (PList [])
  | Some r => json_loads (contents r)
  end.

(** What is stored for a user apart from the id of the row: the contents
    and the cost. *)
Definition cart_data (w : world) (username : string) : option (string * Z) :=
  (fun r => (contents r, cost r)) <$> cart_row w username.

(** The user a call is about. *)
Definition user_of (c : call) : string :=
  match c with
  | GetCart u | AddToCart u _ | RemoveFromCart u _ | DeleteCart u => u
  end.

Definition exn_of {A} (r : outcome A) : option exn :=
  match r with
  | Returned _ => None
  | Raised e => Some e
  end.

(** The exception a call raises, [None] when it returns. *)
Definition raised (float_repr : string -> string)
    (float_eq_int : Z -> string -> bool) (c : call) (w : world) : option exn :=
  match c with
  | GetCart u => exn_of (fst (get_cart u w))
  | AddToCart u p => exn_of (fst (add_to_cart float_repr u p w))
  | RemoveFromCart u p =>
      exn_of (fst (remove_from_cart float_repr float_eq_int u p w))
  | DeleteCart u => exn_of (fst (delete_cart u w))
  end.

(** A function without [return] gives [None] to its caller. *)
Definition returns_none (r : outcome unit) : outcome pyval :=
  match r with
  | Returned _ => Returned PNone
  | Raised e => Raised e
  end.

(** What a call gives its caller: the value returned, or the exception
    raised. *)
Definition result (float_repr : string -> string)
    (float_eq_int : Z -> string -> bool) (c : call) (w : world)
    : outcome pyval :=
  match c with
  | GetCart u => fst (get_cart u w)
  | AddToCart u p => returns_none (fst (add_to_cart float_repr u p w))
  | RemoveFromCart u p =>
      returns_none (fst (remove_from_cart float_repr float_eq_int u p w))
  | DeleteCart u => returns_none (fst (delete_cart u w))
  end.

(** Two worlds store the same contents and cost for every user; the ids
    of the rows may differ. *)
Definition same_data (w w' : world) : Prop :=
  forall x, cart_data w x = cart_data w' x.

(** The ids of a table are in order: they lie between 1 and the counter,
    and no two rows share one. *)
Definition ids_ok (db : database) : Prop :=
  0 <= seq db
  /\ (forall u r, carts db !! u = Some r -> 1 <= cart_id r <= seq db)
  /\ (forall u v r r',
        carts db !! u = Some r -> carts db !! v = Some r' ->
        cart_id r = cart_id r' -> u = v).

(** ** JSON: printing a list of integers and reading it back *)

Fixpoint all_digits (s : string) : bool :=
  match s with
  | EmptyString => true
  | String c s' => is_digit c && all_digits s'
  end.

(** The tokens of a printed list of integers, between the brackets. *)
Definition int_tokens (l : list Z) : list token :=
  match l with
  | [] => []
  | z :: l' => TLit (PInt z) :: flat_map (fun z => [TComma; TLit (PInt z)]) l'
  end.

Lemma append_assoc (a b c : string) :
  String.append (String.append a b) c = String.append a (String.append b c).
Proof. induction a as [|x a IH]; simpl; [reflexivity | now rewrite IH]. Qed.

Lemma append_empty_r (a : string) : String.append a EmptyString = a.
Proof. induction a as [|x a IH]; simpl; [reflexivity | now rewrite IH]. Qed.

Lemma snoc_append (lx : string) (c : ascii) (s : string) :
  String.append (snoc lx c) s = String.append lx (String c s).
Proof. unfold snoc, str1. now rewrite append_assoc. Qed.

Lemma all_digits_uint (d : Decimal.uint) :
  all_digits (NilEmpty.string_of_uint d) = true.
Proof. induction d; simpl; auto. Qed.

Lemma is_digit_numchar (c : ascii) : is_digit c = true -> is_numchar c = true.
Proof. unfold is_numchar. now intros ->. Qed.

Lemma span_digits_all (s : string) :
  all_digits s = true -> span_digits s = (s, EmptyString).
Proof.
  induction s as [|c s IH]; simpl; [reflexivity |].
  intros [Hc Hs]%andb_true_iff. rewrite Hc, (IH Hs). reflexivity.
Qed.

(** Inside a number, digits only extend the lexeme. *)
Lemma lex_digits (s : string) : forall lx tail,
  all_digits s = true ->
  lex (LNum lx) (String.append s tail) = lex (LNum (String.append lx s)) tail.
Proof.
  induction s as [|c s IH]; intros lx tail Hs; simpl.
  - now rewrite append_empty_r.
  - simpl in Hs. apply andb_true_iff in Hs as [Hc Hs].
    rewrite (is_digit_numchar _ Hc). simpl.
    rewrite (IH _ _ Hs), snoc_append.
    now destruct (lex _ tail).
Qed.

(** The digits [Pos.to_uint] gives do not start with a zero. *)
Lemma to_uint_head (p : positive) :
  match Pos.to_uint p with
  | Decimal.Nil | Decimal.D0 _ => False
  | _ => True
  end.
Proof.
  pose proof (DecimalPos.Unsigned.to_uint_nonzero p) as Hnz.
  pose proof (DecimalPos.Unsigned.to_of (Pos.to_uint p)) as Hto.
  rewrite DecimalPos.Unsigned.of_to in Hto. simpl in Hto.
  assert (Hh : Decimal.nzhead (Pos.to_uint p) <> Decimal.Nil).
  { intros H. apply DecimalFacts.unorm_0 in H. congruence. }
  rewrite (DecimalFacts.unorm_nzhead _ Hh) in Hto.
  pose proof (DecimalFacts.nzhead_nonzero (Pos.to_uint p)) as Hd.
  rewrite <- Hto in Hd, Hh.
  destruct (Pos.to_uint p); try exact I; [now apply Hh | now apply (Hd u)].
Qed.

Lemma int_digits_ok_to_uint (p : positive) :
  int_digits_ok (NilEmpty.string_of_uint (Pos.to_uint p)) = true.
Proof.
  pose proof (to_uint_head p) as H.
  destruct (Pos.to_uint p) as [|u|u|u|u|u|u|u|u|u|u]; try contradiction;
    simpl; now destruct (NilEmpty.string_of_uint u).
Qed.

Lemma string_of_uint_to_uint (p : positive) :
  NilZero.string_of_uint (Pos.to_uint p) = NilEmpty.string_of_uint (Pos.to_uint p).
Proof.
  pose proof (to_uint_head p) as H. now destruct (Pos.to_uint p).
Qed.

Lemma int_of_lexeme_encode (z : Z) : int_of_lexeme (encode_int z) = Some z.
Proof.
  unfold int_of_lexeme, encode_int.
  rewrite NilZero.isi.
  - simpl. now rewrite DecimalZ.of_to.
  - destruct z; simpl; try discriminate.
    intros [= H]. now apply (DecimalPos.Unsigned.to_uint_nonnil p).
  - destruct z; simpl; try discriminate.
    intros [= H]. now apply (DecimalPos.Unsigned.to_uint_nonnil p).
Qed.

Lemma digit_not_minus (c : ascii) : is_digit c = true -> Ascii.eqb c "-" = false.
Proof. destruct c as [[] [] [] [] [] [] [] []]; vm_compute; congruence. Qed.

Lemma digit_start (c : ascii) :
  is_digit c = true -> start_step c = Some ([], LNum (str1 c)).
Proof. destruct c as [[] [] [] [] [] [] [] []]; vm_compute; congruence. Qed.

(** A printed integer: digits that form an integer part, after an
    optional minus sign. *)
Lemma encode_int_cases (z : Z) :
  (all_digits (encode_int z) = true /\ int_digits_ok (encode_int z) = true)
  \/ (exists s, encode_int z = String "-" s
                /\ all_digits s = true /\ int_digits_ok s = true).
Proof.
  destruct z as [|p|p]; unfold encode_int; simpl.
  - left. split; reflexivity.
  - left. rewrite string_of_uint_to_uint.
    split; [apply all_digits_uint | apply int_digits_ok_to_uint].
  - right. eexists. split; [reflexivity |].
    rewrite string_of_uint_to_uint.
    split; [apply all_digits_uint | apply int_digits_ok_to_uint].
Qed.

Lemma number_value_digits (s : string) :
  all_digits s = true -> int_digits_ok s = true ->
  number_value s = PInt <$> int_of_lexeme s.
Proof.
  intros Hd Hok. unfold number_value.
  destruct s as [|c s']; [discriminate |].
  assert (Hc : is_digit c = true) by (simpl in Hd; now apply andb_true_iff in Hd).
  rewrite (digit_not_minus _ Hc), (span_digits_all _ Hd), Hok. reflexivity.
Qed.

Lemma number_value_minus (s : string) :
  all_digits s = true -> int_digits_ok s = true ->
  number_value (String "-" s) = PInt <$> int_of_lexeme (String "-" s).
Proof.
  intros Hd Hok. unfold number_value.
  change (Ascii.eqb "-" "-") with true. cbv iota.
  rewrite (span_digits_all _ Hd), Hok. reflexivity.
Qed.

Lemma number_value_encode (z : Z) : number_value (encode_int z) = Some (PInt z).
Proof.
  destruct (encode_int_cases z) as [[Hd Hok] | (s & Hs & Hd & Hok)].
  - now rewrite (number_value_digits _ Hd Hok), int_of_lexeme_encode.
  - rewrite Hs, (number_value_minus _ Hd Hok), <- Hs.
    now rewrite int_of_lexeme_encode.
Qed.

Lemma option_bind_some {A} (m : option A) : m ≫= (fun r => Some r) = m.
Proof. now destruct m. Qed.

Lemma lex_start_digit (c : ascii) (rest : string) :
  is_digit c = true -> lex LStart (String c rest) = lex (LNum (str1 c)) rest.
Proof.
  intros Hc. simpl. rewrite (digit_start _ Hc). simpl. apply option_bind_some.
Qed.

Lemma lex_start_minus (rest : string) :
  lex LStart (String "-" rest) = lex (LNum "-") rest.
Proof. simpl. apply option_bind_some. Qed.

(** At a character that cannot continue it, a number literal is complete. *)
Lemma lex_number_end (lexeme : string) (v : pyval) (c : ascii) (tail : string) :
  is_numchar c = false -> String.eqb lexeme "-" = false ->
  number_value lexeme = Some v ->
  lex (LNum lexeme) (String c tail)
  = '(ts, st') ← start_step c; rest ← lex st' tail; Some (TLit v :: ts ++ rest).
Proof.
  intros Hc Hne Hv. cbn [lex lex_step]. rewrite Hc, Hne, Hv. simpl.
  destruct (start_step c) as [[ts st']|]; simpl; [| reflexivity].
  now destruct (lex st' tail).
Qed.

(** Reading a printed integer that a delimiter [c] follows. *)
Lemma lex_encode_int (z : Z) (c : ascii) (tail : string) :
  is_numchar c = false ->
  lex LStart (String.append (encode_int z) (String c tail))
  = '(ts, st') ← start_step c; rest ← lex st' tail;
    Some (TLit (PInt z) :: ts ++ rest).
Proof.
  intros Hc.
  rewrite <- (lex_number_end (encode_int z) (PInt z) c tail Hc);
    [| | apply number_value_encode].
  - destruct (encode_int_cases z) as [[Hd Hok] | (s & Hs & Hd & Hok)].
    + destruct (encode_int z) as [|c0 s0]; [discriminate |].
      simpl in Hd. apply andb_true_iff in Hd as [Hc0 Hd].
      change (lex LStart (String c0 (String.append s0 (String c tail)))
              = lex (LNum (String c0 s0)) (String c tail)).
      now rewrite (lex_start_digit _ _ Hc0), (lex_digits _ _ _ Hd).
    + rewrite Hs.
      change (lex LStart (String "-" (String.append s (String c tail)))
              = lex (LNum (String "-" s)) (String c tail)).
      now rewrite lex_start_minus, (lex_digits _ _ _ Hd).
  - destruct (encode_int_cases z) as [[Hd Hok] | (s & Hs & Hd & Hok)].
    + destruct (encode_int z) as [|c0 s0]; [discriminate |].
      simpl in Hd. apply andb_true_iff in Hd as [Hc0 Hd].
      simpl. now rewrite (digit_not_minus _ Hc0).
    + rewrite Hs. now destruct s.
Qed.

Lemma lex_start_space (rest : string) :
  lex LStart (String " " rest) = lex LStart rest.
Proof. simpl. apply option_bind_some. Qed.

Lemma concat_cons2 (sep x y : string) (l : list string) :
  String.concat sep (x :: y :: l)
  = String.append x (String.append sep (String.concat sep (y :: l))).
Proof. reflexivity. Qed.

(** The text of a non-empty list of integers, up to the closing bracket. *)
Lemma lex_ints (l : list Z) : forall z,
  lex LStart (String.append (String.concat ", " (map encode_int (z :: l))) "]")
  = Some (int_tokens (z :: l) ++ [TRBrack]).
Proof.
  induction l as [|z' l IH]; intros z.
  - change (String.concat ", " (map encode_int [z])) with (encode_int z).
    rewrite lex_encode_int by reflexivity. reflexivity.
  - change (map encode_int (z :: z' :: l))
      with (encode_int z :: encode_int z' :: map encode_int l).
    rewrite concat_cons2.
    change (encode_int z' :: map encode_int l) with (map encode_int (z' :: l)).
    specialize (IH z').
    remember (String.concat ", " (map encode_int (z' :: l))) as R eqn:HR.
    rewrite !append_assoc.
    change (String.append ", " (String.append R "]"))
      with (String "," (String " " (String.append R "]"))).
    rewrite lex_encode_int by reflexivity.
    change (start_step ",") with (Some ([TComma], LStart)).
    cbn [mbind option_bind]. rewrite lex_start_space, IH. reflexivity.
Qed.

Lemma parse_int_tail (l : list Z) : forall items,
  parse (PRun [FArr items] ESep)
        (flat_map (fun z => [TComma; TLit (PInt z)]) l ++ [TRBrack])
  = Some (PDone (PList (items ++ (PInt <$> l)))).
Proof.
  induction l as [|z l IH]; intros items; simpl.
  - now rewrite app_nil_r.
  - rewrite IH, <- app_assoc. reflexivity.
Qed.

Lemma parse_int_tokens (l : list Z) :
  parse (PRun [] EValue) (TLBrack :: int_tokens l ++ [TRBrack])
  = Some (PDone (int_list l)).
Proof.
  destruct l as [|z l]; [reflexivity |].
  cbn [int_tokens]. simpl. now rewrite parse_int_tail.
Qed.

Lemma map_dumps_ints (float_repr : string -> string) (l : list Z) :
  map (json_dumps float_repr) (PInt <$> l) = map encode_int l.
Proof.
  induction l as [|z l IH]; [reflexivity |].
  change (json_dumps float_repr (PInt z) :: map (json_dumps float_repr) (PInt <$> l)
          = encode_int z :: map encode_int l).
  now rewrite IH.
Qed.

Lemma dumps_int_list (float_repr : string -> string) (l : list Z) :
  json_dumps float_repr (int_list l)
  = String.append "[" (String.append (String.concat ", " (map encode_int l)) "]").
Proof.
  unfold int_list.
  change (json_dumps float_repr (PList (PInt <$> l)))
    with (String.append "["
            (String.append
               (String.concat ", " (map (json_dumps float_repr) (PInt <$> l))) "]")).
  now rewrite map_dumps_ints.
Qed.

Lemma lex_start_lbrack (rest : string) :
  lex LStart (String "[" rest) = ts ← lex LStart rest; Some (TLBrack :: ts).
Proof. reflexivity. Qed.

(** [json.loads(json.dumps(l)) == l] for a list of [int]s. *)
Lemma loads_dumps_int_list (float_repr : string -> string) (l : list Z) :
  json_loads (json_dumps float_repr (int_list l)) = Some (int_list l).
Proof.
  rewrite dumps_int_list. unfold json_loads.
  destruct l as [|z l]; [reflexivity |].
  change (String.append "[" ?x) with (String "[" x).
  rewrite lex_start_lbrack, lex_ints.
  cbn [mbind option_bind]. rewrite parse_int_tokens. reflexivity.
Qed.

(** A few readings and printings, by computation. *)

Example loads_int_array :
  json_loads "[1, -2,3 ]" = Some (int_list [1; -2; 3]).
Proof. vm_compute. reflexivity. Qed.

Example loads_containers :
  json_loads "[[], {}, null, true]"
  = Some (PList [PList []; PDict []; PNone; PBool true]).
Proof. vm_compute. reflexivity. Qed.

Example loads_floats :
  json_loads "[1.50, 2e3, -Infinity]"
  = Some (PList [PFloat "1.50"; PFloat "2e3"; PFloat "-Infinity"]).
Proof. vm_compute. reflexivity. Qed.

Example loads_str_array : json_loads text_str_array = Some str_array.
Proof. vm_compute. reflexivity. Qed.

Example loads_refused :
  json_loads "[1,]" = None /\ json_loads "[01]" = None
  /\ json_loads "[1] 2" = None /\ json_loads "[1, 2" = None
  /\ json_loads "oops" = None /\ json_loads EmptyString = None.
Proof. vm_compute. repeat split. Qed.

Example dumps_ints :
  json_dumps repr_lexeme (int_list [10; -20; 0]) = "[10, -20, 0]".
Proof. vm_compute. reflexivity. Qed.

Example dumps_str_array :
  json_dumps repr_lexeme (PList [PStr [97%N]; PInt 5])
  = String "[" (String dquote (String "a" (String dquote ", 5]"))).
Proof. vm_compute. reflexivity. Qed.

(** ** Running the primitives

    Inside [with_connection] the connection of the call is the last one
    of [conns], open, and it sees a schema. *)

Lemma bind_returned {A B} (m : M A) (k : A -> M B) (w w' : world) (a : A) :
  m w = (Returned a, w') -> (m ≫= k) w = k a w'.
Proof. intros H. unfold mbind, M_bind. now rewrite H. Qed.

Lemma bind_raised {A B} (m : M A) (k : A -> M B) (w w' : world) (e : exn) :
  m w = (Raised e, w') -> (m ≫= k) w = (Raised e, w').
Proof. intros H. unfold mbind, M_bind. now rewrite H. Qed.

Lemma lookup_last (cs : list connection) (c : connection) :
  (cs ++ [c]) !! length cs = Some c.
Proof. now apply list_lookup_middle. Qed.

Lemma insert_last (cs : list connection) (c c' : connection) :
  <[length cs := c']> (cs ++ [c]) = cs ++ [c'].
Proof.
  rewrite insert_app_r_alt by lia. now rewrite Nat.sub_diag.
Qed.

Section Primitives.

Variable f : option database.
Variable cs : list connection.

Lemma the_conn_open v :
  the_conn (length cs) (opened cs f v)
  = (Returned {| view := v; closed := false |}, opened cs f v).
Proof. unfold the_conn, opened. simpl. now rewrite lookup_last. Qed.

Lemma set_view_open v v' :
  set_view (length cs) v' (opened cs f v) = (Returned tt, opened cs f v').
Proof. unfold set_view, opened. simpl. now rewrite insert_last. Qed.

Lemma the_db_open db :
  the_db (length cs) (opened cs f (Some db)) = (Returned db, opened cs f (Some db)).
Proof. unfold the_db. now rewrite (bind_returned _ _ _ _ _ (the_conn_open _)). Qed.

Lemma execute_create_table_open v :
  execute_create_table (length cs) (opened cs f v)
  = (Returned tt, opened cs f (Some (default empty_db v))).
Proof.
  unfold execute_create_table.
  rewrite (bind_returned _ _ _ _ _ (the_conn_open _)). apply set_view_open.
Qed.

Lemma execute_select_open u db :
  execute_select (length cs) u (opened cs f (Some db))
  = (Returned (sql_select u db), opened cs f (Some db)).
Proof.
  unfold execute_select. now rewrite (bind_returned _ _ _ _ _ (the_db_open _)).
Qed.

Lemma execute_insert_or_replace_open u c k db :
  execute_insert_or_replace (length cs) u c k (opened cs f (Some db))
  = (Returned tt, opened cs f (Some (sql_insert_or_replace u c k db))).
Proof.
  unfold execute_insert_or_replace.
  rewrite (bind_returned _ _ _ _ _ (the_db_open _)). apply set_view_open.
Qed.

Lemma execute_delete_open u db :
  execute_delete (length cs) u (opened cs f (Some db))
  = (Returned tt, opened cs f (Some (sql_delete u db))).
Proof.
  unfold execute_delete.
  rewrite (bind_returned _ _ _ _ _ (the_db_open _)). apply set_view_open.
Qed.

Lemma commit_open db :
  commit (length cs) (opened cs f (Some db))
  = (Returned tt, opened cs (Some db) (Some db)).
Proof.
  unfold commit. now rewrite (bind_returned _ _ _ _ _ (the_conn_open _)).
Qed.

Lemma close_open v :
  close (length cs) (opened cs f v)
  = (Returned tt,
     {| file := f; conns := cs ++ [{| view := v; closed := true |}] |}).
Proof. unfold close, opened. simpl. now rewrite lookup_last, insert_last. Qed.

End Primitives.

(** ** Running the operations *)

Lemma sqlite3_connect_run (w : world) :
  sqlite3_connect w = (Returned (length (conns w)), opened (conns w) (file w) (file w)).
Proof. reflexivity. Qed.

Lemma create_tables_open (cs : list connection) (f v : option database) :
  create_tables (length cs) (opened cs f v)
  = (Returned tt, opened cs (Some (default empty_db v)) (Some (default empty_db v))).
Proof.
  unfold create_tables.
  rewrite (bind_returned _ _ _ _ _ (execute_create_table_open _ _ _)).
  apply commit_open.
Qed.

(** [connect] leaves a connection that sees the stored state, and a file
    that holds it. *)
Lemma connect_run (w : world) :
  connect w
  = (Returned (length (conns w)),
     opened (conns w) (Some (stored w)) (Some (stored w))).
Proof.
  unfold connect, stored, os_path_exists.
  unfold mbind at 1, M_bind at 1.
  rewrite (bind_returned _ _ _ _ _ (sqlite3_connect_run _)).
  destruct w as [[db|] cs]; cbn [file conns]; [reflexivity |].
  change (bool_decide (is_Some (@None database))) with false. cbn [negb].
  now rewrite (bind_returned _ _ _ _ _ (create_tables_open _ _ _)).
Qed.

(** [with_connection]: the body runs on the new connection, and whatever
    it does, the connection is closed afterwards. *)
Lemma with_connection_run {A} (func : nat -> M A) (w : world)
    (r : outcome A) (f v : option database) :
  func (length (conns w)) (opened (conns w) (Some (stored w)) (Some (stored w)))
  = (r, opened (conns w) f v) ->
  with_connection func w
  = (r, {| file := f; conns := conns w ++ [{| view := v; closed := true |}] |}).
Proof.
  intros Hbody. unfold with_connection.
  rewrite (bind_returned _ _ _ _ _ (connect_run _)).
  unfold mbind, M_bind, try_finally. rewrite Hbody, close_open.
  now destruct r.
Qed.

Lemma fetchone_select (u : string) (db : database) :
  fetchone (sql_select u db) = carts db !! u.
Proof. unfold fetchone, sql_select. now destruct (carts db !! u). Qed.

Lemma get_cart_run (u : string) (w : world) :
  get_cart u w
  = (match cart_row w u with
     | None => Returned (PList [])
     | Some r =>
         match json_loads (contents r) with
         | Some v => Returned v
         | None => Raised JSONDecodeError
         end
     end,
     finish w (stored w)).
Proof.
  unfold get_cart. apply with_connection_run. unfold get_cart_body.
  rewrite (bind_returned _ _ _ _ _ (execute_select_open _ _ _ _)).
  rewrite fetchone_select. unfold cart_row.
  destruct (carts (stored w) !! u) as [r|]; [| reflexivity].
  unfold loads. now destruct (json_loads (contents r)).
Qed.

Lemma delete_cart_run (u : string) (w : world) :
  delete_cart u w = (Returned tt, finish w (sql_delete u (stored w))).
Proof.
  unfold delete_cart. apply with_connection_run. unfold delete_cart_body.
  rewrite (bind_returned _ _ _ _ _ (execute_delete_open _ _ _ _)).
  apply commit_open.
Qed.

Section DaoRuns.

Variable float_repr : string -> string.
Variable float_eq_int : Z -> string -> bool.

Lemma write_back_open (cs : list connection) (f : option database)
    (db : database) (u : string) (v : pyval) :
  (execute_insert_or_replace (length cs) u (json_dumps float_repr v) 0
     ≫= fun _ => commit (length cs)) (opened cs f (Some db))
  = (Returned tt,
     let db' := sql_insert_or_replace u (json_dumps float_repr v) 0 db in
     opened cs (Some db') (Some db')).
Proof.
  rewrite (bind_returned _ _ _ _ _ (execute_insert_or_replace_open _ _ _ _ _ _)).
  apply commit_open.
Qed.

Lemma add_to_cart_run (u : string) (p : Z) (w : world) :
  add_to_cart float_repr u p w
  = match (match cart_row w u with
           | None => Some (PList [])
           | Some r => json_loads (contents r)
           end) with
    | None => (Raised JSONDecodeError, finish w (stored w))
    | Some (PList items) =>
        (Returned tt,
         finish w (sql_insert_or_replace u
                     (json_dumps float_repr (PList (items ++ [PInt p]))) 0
                     (stored w)))
    | Some _ => (Raised AttributeError, finish w (stored w))
    end.
Proof.
  unfold add_to_cart, cart_row.
  set (old := match carts (stored w) !! u with
              | None => Some (PList [])
              | Some r => json_loads (contents r)
              end).
  assert (Hold : (match carts (stored w) !! u with
                  | Some r => loads (contents r)
                  | None => mret (PList [])
                  end) (opened (conns w) (Some (stored w)) (Some (stored w)))
                 = (match old with
                    | Some v => Returned v
                    | None => Raised JSONDecodeError
                    end, opened (conns w) (Some (stored w)) (Some (stored w)))).
  { unfold old, loads. destruct (carts (stored w) !! u) as [r|]; [| reflexivity].
    now destruct (json_loads (contents r)). }
  destruct old as [v|].
  - destruct v; try (apply with_connection_run; unfold add_to_cart_body;
      rewrite (bind_returned _ _ _ _ _ (execute_select_open _ _ _ _));
      rewrite fetchone_select;
      rewrite (bind_returned _ _ _ _ _ Hold); reflexivity).
    apply with_connection_run. unfold add_to_cart_body.
    rewrite (bind_returned _ _ _ _ _ (execute_select_open _ _ _ _)).
    rewrite fetchone_select.
    rewrite (bind_returned _ _ _ _ _ Hold).
    unfold py_append. unfold mbind at 1, M_bind at 1, mret, M_ret.
    now rewrite write_back_open.
  - apply with_connection_run. unfold add_to_cart_body.
    rewrite (bind_returned _ _ _ _ _ (execute_select_open _ _ _ _)).
    rewrite fetchone_select.
    now rewrite (bind_raised _ _ _ _ _ Hold).
Qed.

Lemma remove_from_cart_run (u : string) (p : Z) (w : world) :
  remove_from_cart float_repr float_eq_int u p w
  = match cart_row w u with
    | None => (Returned tt, finish w (stored w))
    | Some r =>
        match json_loads (contents r) with
        | None => (Raised JSONDecodeError, finish w (stored w))
        | Some (PList items) =>
            if existsb (py_eq_int float_eq_int p) items then
              match list_remove float_eq_int p items with
              | Some items' =>
                  (Returned tt,
                   finish w (sql_insert_or_replace u
                               (json_dumps float_repr (PList items')) 0
                               (stored w)))
              | None => (Raised ValueError, finish w (stored w))
              end
            else (Returned tt, finish w (stored w))
        | Some (PDict _) => (Returned tt, finish w (stored w))
        | Some _ => (Raised TypeError, finish w (stored w))
        end
    end.
Proof.
  unfold remove_from_cart, cart_row.
  destruct (carts (stored w) !! u) as [r|] eqn:Hrow.
  2:{ apply with_connection_run. unfold remove_from_cart_body.
      rewrite (bind_returned _ _ _ _ _ (execute_select_open _ _ _ _)).
      now rewrite fetchone_select, Hrow. }
  assert (Hbody :
    remove_from_cart_body float_repr float_eq_int (length (conns w)) u p
      (opened (conns w) (Some (stored w)) (Some (stored w)))
    = match json_loads (contents r) with
      | Some old =>
          (found ← py_contains float_eq_int p old;
           if found : bool then
             new ← py_remove float_eq_int old p;
             execute_insert_or_replace (length (conns w)) u
               (json_dumps float_repr new) 0;;
             commit (length (conns w))
           else mret tt)
            (opened (conns w) (Some (stored w)) (Some (stored w)))
      | None => (Raised JSONDecodeError,
                 opened (conns w) (Some (stored w)) (Some (stored w)))
      end).
  { unfold remove_from_cart_body.
    rewrite (bind_returned _ _ _ _ _ (execute_select_open _ _ _ _)).
    rewrite fetchone_select, Hrow. unfold loads.
    now destruct (json_loads (contents r)). }
  destruct (json_loads (contents r)) as [old|].
  2:{ now apply with_connection_run. }
  destruct old as [| | | | |items|];
    try (now apply with_connection_run).
  unfold py_contains, py_remove in Hbody.
  unfold mbind at 1, M_bind at 1, mret at 1, M_ret at 1 in Hbody.
  destruct (existsb (py_eq_int float_eq_int p) items) eqn:Hin.
  2:{ now apply with_connection_run. }
  destruct (list_remove float_eq_int p items) as [items'|] eqn:Hrm.
  - apply with_connection_run. rewrite Hbody.
    unfold mbind at 1, M_bind at 1, mret at 1, M_ret at 1.
    now rewrite write_back_open.
  - now apply with_connection_run.
Qed.

End DaoRuns.

(** ** The statements on the table *)

Lemma stored_finish (w : world) (db : database) : stored (finish w db) = db.
Proof. reflexivity. Qed.

Lemma cart_row_finish (w : world) (db : database) (u : string) :
  cart_row (finish w db) u = carts db !! u.
Proof. reflexivity. Qed.

Lemma insert_or_replace_lookup (u c : string) (k : Z) (db : database) :
  carts (sql_insert_or_replace u c k db) !! u = Some (Row (new_rowid db) c k).
Proof. unfold sql_insert_or_replace. simpl. apply lookup_insert_eq. Qed.

Lemma insert_or_replace_other (u v c : string) (k : Z) (db : database) :
  u <> v -> carts (sql_insert_or_replace u c k db) !! v = carts db !! v.
Proof.
  intros Hne. unfold sql_insert_or_replace. simpl.
  now rewrite lookup_insert_ne, lookup_delete_ne.
Qed.

Lemma delete_lookup (u : string) (db : database) :
  carts (sql_delete u db) !! u = None.
Proof. unfold sql_delete. simpl. apply lookup_delete_eq. Qed.

Lemma delete_other (u v : string) (db : database) :
  u <> v -> carts (sql_delete u db) !! v = carts db !! v.
Proof. intros Hne. unfold sql_delete. simpl. now apply lookup_delete_ne. Qed.

Lemma delete_absent (u : string) (db : database) :
  carts db !! u = None -> sql_delete u db = db.
Proof.
  intros Hno. destruct db as [t s]. unfold sql_delete. simpl in *.
  f_equal. now apply delete_id.
Qed.

Lemma foldr_max_ge (i : Z) (ids : list Z) (x : Z) :
  x = i \/ x ∈ ids -> x <= foldr Z.max i ids.
Proof.
  induction ids as [|j ids IH]; simpl.
  - intros [-> | H]; [lia | inversion H].
  - intros [-> | H].
    + specialize (IH (or_introl eq_refl)). lia.
    + apply elem_of_cons in H as [-> | H]; [lia |].
      specialize (IH (or_intror H)). lia.
Qed.

(** The key of a new row is above the key of every row of the table. *)
Lemma new_rowid_above (db : database) (u : string) (r : row) :
  carts db !! u = Some r -> cart_id r < new_rowid db.
Proof.
  intros Hrow. unfold new_rowid, rowids.
  assert (Hin : cart_id r ∈ (fun kv => cart_id (snd kv)) <$> map_to_list (carts db)).
  { apply list_elem_of_fmap. exists (u, r). split; [reflexivity |].
    now apply elem_of_map_to_list. }
  destruct ((fun kv => cart_id (snd kv)) <$> map_to_list (carts db)) as [|i ids].
  - inversion Hin.
  - assert (cart_id r <= foldr Z.max i ids); [| lia].
    apply foldr_max_ge. apply elem_of_cons in Hin as [-> | H]; auto.
Qed.

(** ** What an operation writes *)

Section Writes.

Variable float_repr : string -> string.
Variable float_eq_int : Z -> string -> bool.

(** [add_to_cart] leaves the table as it was or replaces the row of its
    user, with cost 0. *)
Lemma add_to_cart_writes (u : string) (p : Z) (w : world) :
  snd (add_to_cart float_repr u p w) = finish w (stored w)
  \/ exists c, snd (add_to_cart float_repr u p w)
               = finish w (sql_insert_or_replace u c 0 (stored w)).
Proof.
  rewrite add_to_cart_run.
  destruct (match cart_row w u with
            | None => Some (PList [])
            | Some r => json_loads (contents r)
            end) as [[]|]; simpl; eauto.
Qed.

Lemma remove_from_cart_writes (u : string) (p : Z) (w : world) :
  snd (remove_from_cart float_repr float_eq_int u p w) = finish w (stored w)
  \/ exists c, snd (remove_from_cart float_repr float_eq_int u p w)
               = finish w (sql_insert_or_replace u c 0 (stored w)).
Proof.
  rewrite remove_from_cart_run.
  destruct (cart_row w u) as [r|]; [| now left].
  destruct (json_loads (contents r)) as [[| | | | |items|]|]; simpl; eauto.
  destruct (existsb _ items); [| now left].
  destruct (list_remove _ p items); simpl; eauto.
Qed.

(** Each call closes the connection it opened, and touches the rows only
    through one of the three statements. *)
Lemma after_writes (c : call) (w : world) :
  exists db, after float_repr float_eq_int c w = finish w db
    /\ (db = stored w
        \/ (exists u t, db = sql_insert_or_replace u t 0 (stored w))
        \/ (exists u, db = sql_delete u (stored w))).
Proof.
  destruct c as [u|u p|u p|u]; simpl.
  - rewrite get_cart_run. simpl. eauto.
  - destruct (add_to_cart_writes u p w) as [-> | [t ->]]; eauto 10.
  - destruct (remove_from_cart_writes u p w) as [-> | [t ->]]; eauto 10.
  - rewrite delete_cart_run. simpl. eauto 10.
Qed.

End Writes.

Lemma get_cart_absent (u : string) (w : world) :
  cart_row w u = None ->
  get_cart u w = (Returned (PList []), finish w (stored w)).
Proof. intros Hno. rewrite get_cart_run. now rewrite Hno. Qed.

(** ** The properties of the specification *)

(** C3. For every username with no stored row, [get_cart] returns the
    empty list: it neither raises nor signals that the row is absent. *)
Theorem get_cart_no_row (u : string) (w : world) :
  cart_row w u = None ->
  fst (get_cart u w) = Returned (PList []).
Proof. intros Hno. now rewrite (get_cart_absent _ _ Hno). Qed.

Lemma get_cart_no_row_witness :
  cart_row initial_world "bob" = None
  /\ fst (get_cart "bob" initial_world) = Returned (PList []).
Proof.
  split; [reflexivity |].
  apply (get_cart_no_row "bob" initial_world). reflexivity.
Defined.

(** C10. [get_cart] is read-only: whatever the starting state and whether
    or not the user has a row, the stored state after the call is the
    stored state before it; a file that exists is left as it is. *)
Theorem get_cart_read_only (u : string) (w : world) :
  stored (snd (get_cart u w)) = stored w
  /\ (forall db, file w = Some db -> file (snd (get_cart u w)) = Some db).
Proof.
  rewrite get_cart_run. simpl. split; [reflexivity |].
  intros db Hf. unfold stored. now rewrite Hf.
Qed.

(** C4. [delete_cart] returns without raising; it removes the row of the
    user when there is one and changes nothing of the stored state when
    there is none; in either case [get_cart] then returns the empty list. *)
Theorem delete_cart_then_get (u : string) (w : world) :
  fst (delete_cart u w) = Returned tt
  /\ carts (stored (snd (delete_cart u w))) = delete u (carts (stored w))
  /\ (cart_row w u = None -> stored (snd (delete_cart u w)) = stored w)
  /\ fst (get_cart u (snd (delete_cart u w))) = Returned (PList []).
Proof.
  rewrite delete_cart_run. simpl. repeat split.
  - intros Hno. rewrite stored_finish. now apply delete_absent.
  - rewrite get_cart_absent; [reflexivity |].
    rewrite cart_row_finish. apply delete_lookup.
Qed.

(** C8. Each of the four operations opens a connection of its own, after
    those that exist, and that connection is closed when the call ends,
    whether the call returns or raises; the connections made before are
    left as they were.  A call that raises exists: [get_cart] on a cart
    whose contents are not JSON. *)
Theorem connection_released
    (float_repr : string -> string) (float_eq_int : Z -> string -> bool) :
  (forall (c : call) (w : world),
      exists cn, conns (after float_repr float_eq_int c w) = conns w ++ [cn]
                 /\ closed cn = true)
  /\ (exists (u : string) (w : world) (e : exn) (cn : connection),
        get_cart u w = (Raised e, {| file := file w; conns := conns w ++ [cn] |})
        /\ closed cn = true).
Proof.
  split.
  - intros c w.
    destruct (after_writes float_repr float_eq_int c w) as (db & -> & _).
    simpl. eauto.
  - exists "alice", (one_cart "alice" "oops"), JSONDecodeError.
    eexists. rewrite get_cart_run. split; reflexivity.
Qed.

(** C9. For distinct usernames [u] and [v], [add_to_cart], [remove_from_cart]
    and [delete_cart] on [u] leave the row stored for [v] (id, contents and
    cost) as it was, whether they return or raise. *)
Theorem other_carts_unchanged
    (float_repr : string -> string) (float_eq_int : Z -> string -> bool)
    (u v : string) (p : Z) (w : world) :
  u <> v ->
  cart_row (snd (add_to_cart float_repr u p w)) v = cart_row w v
  /\ cart_row (snd (remove_from_cart float_repr float_eq_int u p w)) v
     = cart_row w v
  /\ cart_row (snd (delete_cart u w)) v = cart_row w v.
Proof.
  intros Hne. repeat split.
  - destruct (add_to_cart_writes float_repr u p w) as [-> | [c ->]];
      rewrite cart_row_finish; [reflexivity |].
    now apply insert_or_replace_other.
  - destruct (remove_from_cart_writes float_repr float_eq_int u p w)
      as [-> | [c ->]]; rewrite cart_row_finish; [reflexivity |].
    now apply insert_or_replace_other.
  - rewrite delete_cart_run. simpl. rewrite cart_row_finish.
    now apply delete_other.
Qed.

Lemma other_carts_unchanged_witness :
  "alice" <> "bob"
  /\ cart_row (snd (add_to_cart repr_lexeme "alice" 7 (one_cart "bob" "[1, 2]"))) "bob"
     = cart_row (one_cart "bob" "[1, 2]") "bob"
  /\ cart_row (snd (remove_from_cart repr_lexeme never_eq "alice" 7
                      (one_cart "bob" "[1, 2]"))) "bob"
     = cart_row (one_cart "bob" "[1, 2]") "bob"
  /\ cart_row (snd (delete_cart "alice" (one_cart "bob" "[1, 2]"))) "bob"
     = cart_row (one_cart "bob" "[1, 2]") "bob".
Proof.
  assert (Hne : "alice" <> "bob") by (vm_compute; discriminate).
  split; [exact Hne |].
  exact (other_carts_unchanged repr_lexeme never_eq "alice" "bob" 7
           (one_cart "bob" "[1, 2]") Hne).
Defined.

(** C5. In every state that calls of the four operations reach from the
    first one, every stored row has cost zero.  From any state at all, a
    row found after a call is the row that was there before or has cost
    zero: every write sets the cost to zero, whatever the contents. *)
Theorem cost_always_zero
    (float_repr : string -> string) (float_eq_int : Z -> string -> bool) :
  (forall (w : world) (u : string) (r : row),
      reachable float_repr float_eq_int w ->
      cart_row w u = Some r ->
      cost r = 0)
  /\ (forall (c : call) (w : world) (u : string) (r : row),
        cart_row (after float_repr float_eq_int c w) u = Some r ->
        cart_row w u = Some r \/ cost r = 0).
Proof.
  assert (Hcall : forall (c : call) (w : world) (u : string) (r : row),
             cart_row (after float_repr float_eq_int c w) u = Some r ->
             cart_row w u = Some r \/ cost r = 0).
  { intros c w u r Hrow.
    destruct (after_writes float_repr float_eq_int c w)
      as (db & Hw & [-> | [(u' & t & ->) | (u' & ->)]]);
      rewrite Hw, cart_row_finish in Hrow.
    - now left.
    - destruct (decide (u' = u)) as [-> | Hne].
      + rewrite insert_or_replace_lookup in Hrow. right. now injection Hrow as <-.
      + rewrite insert_or_replace_other in Hrow by assumption. now left.
    - destruct (decide (u' = u)) as [-> | Hne].
      + now rewrite delete_lookup in Hrow.
      + rewrite delete_other in Hrow by assumption. now left. }
  split; [| exact Hcall].
  intros w u r Hreach. revert u r.
  induction Hreach as [|w c _ IH]; intros u r Hrow.
  - discriminate Hrow.
  - destruct (Hcall c w u r Hrow) as [Hold | Hzero]; [| exact Hzero].
    now apply (IH u).
Qed.

Lemma cost_always_zero_witness :
  reachable repr_lexeme never_eq
    (after repr_lexeme never_eq (AddToCart "alice" 10) initial_world)
  /\ cart_row (after repr_lexeme never_eq (AddToCart "alice" 10) initial_world)
       "alice" = Some (Row 1 "[10]" 0)
  /\ cost (Row 1 "[10]" 0) = 0.
Proof.
  assert (Hreach : reachable repr_lexeme never_eq
            (after repr_lexeme never_eq (AddToCart "alice" 10) initial_world))
    by (apply reachable_call, reachable_initial).
  assert (Hrow : cart_row (after repr_lexeme never_eq (AddToCart "alice" 10)
                             initial_world) "alice" = Some (Row 1 "[10]" 0))
    by (vm_compute; reflexivity).
  split; [exact Hreach |]. split; [exact Hrow |].
  exact (proj1 (cost_always_zero repr_lexeme never_eq) _ "alice" _ Hreach Hrow).
Defined.

(** ** Carts that hold lists of integers *)

Section IntCarts.

Variable float_repr : string -> string.
Variable float_eq_int : Z -> string -> bool.

Lemma int_list_snoc (l : list Z) (p : Z) :
  PList ((PInt <$> l) ++ [PInt p]) = int_list (l ++ [p]).
Proof. unfold int_list. now rewrite fmap_app. Qed.

Lemma holds_loads (w : world) (u : string) (l : list Z) :
  holds float_repr w u l ->
  match cart_row w u with
  | None => Some (PList [])
  | Some r => json_loads (contents r)
  end = Some (int_list l).
Proof.
  unfold holds. destruct (cart_row w u) as [r|].
  - intros ->. apply loads_dumps_int_list.
  - now intros ->.
Qed.

Lemma holds_written (w : world) (u : string) (l : list Z) (db : database) :
  holds float_repr
    (finish w (sql_insert_or_replace u (json_dumps float_repr (int_list l)) 0 db))
    u l.
Proof.
  unfold holds. now rewrite cart_row_finish, insert_or_replace_lookup.
Qed.

Lemma add_to_cart_holds (w : world) (u : string) (l : list Z) (p : Z) :
  holds float_repr w u l ->
  add_to_cart float_repr u p w
  = (Returned tt,
     finish w (sql_insert_or_replace u
                 (json_dumps float_repr (int_list (l ++ [p]))) 0 (stored w))).
Proof.
  intros H. rewrite add_to_cart_run, (holds_loads _ _ _ H).
  unfold int_list at 1. cbv iota beta. now rewrite int_list_snoc.
Qed.

Lemma add_all_holds (u : string) (ps : list Z) : forall (l : list Z) (w : world),
  holds float_repr w u l ->
  exists w', add_all float_repr u ps w = (Returned tt, w')
             /\ holds float_repr w' u (l ++ ps).
Proof.
  induction ps as [|p ps IH]; intros l w H.
  - exists w. rewrite app_nil_r. now split.
  - destruct (IH (l ++ [p]) _ (holds_written w u (l ++ [p]) (stored w)))
      as (w' & Hrun & Hw').
    exists w'. split.
    + cbn [add_all].
      rewrite (bind_returned _ _ _ _ _ (add_to_cart_holds _ _ _ p H)).
      exact Hrun.
    + now rewrite <- app_assoc in Hw'.
Qed.

Lemma get_cart_holds (w : world) (u : string) (l : list Z) :
  holds float_repr w u l -> fst (get_cart u w) = Returned (int_list l).
Proof.
  intros H. rewrite get_cart_run. simpl.
  pose proof (holds_loads _ _ _ H) as Hl.
  destruct (cart_row w u) as [r|].
  - now rewrite Hl.
  - congruence.
Qed.

(** [p in l] and [l.remove(p)] on a list of [int]s. *)
Lemma contains_int_list (p : Z) (l : list Z) :
  existsb (py_eq_int float_eq_int p) (PInt <$> l) = bool_decide (p ∈ l).
Proof.
  induction l as [|z l IH]; [reflexivity |].
  change (existsb (py_eq_int float_eq_int p) (PInt <$> z :: l))
    with ((p =? z) || existsb (py_eq_int float_eq_int p) (PInt <$> l)).
  rewrite IH.
  destruct (Z.eqb_spec p z) as [-> | Hne].
  - symmetry. apply bool_decide_eq_true. apply elem_of_cons. now left.
  - simpl. apply bool_decide_ext. rewrite elem_of_cons. tauto.
Qed.

Lemma remove_first_int (p : Z) (l1 l2 : list Z) :
  p ∉ l1 ->
  list_remove float_eq_int p (PInt <$> (l1 ++ p :: l2))
  = Some (PInt <$> (l1 ++ l2)).
Proof.
  induction l1 as [|z l1 IH]; intros Hnotin.
  - cbn [app fmap list_fmap list_remove py_eq_int]. now rewrite Z.eqb_refl.
  - apply not_elem_of_cons in Hnotin as [Hne Hnotin].
    change (PInt <$> ((z :: l1) ++ p :: l2))
      with (PInt z :: (PInt <$> (l1 ++ p :: l2))).
    cbn [list_remove py_eq_int].
    destruct (Z.eqb_spec p z); [contradiction |].
    now rewrite (IH Hnotin).
Qed.

End IntCarts.

(** C1. From a state with no row for [u], the calls [add_to_cart(u, p)]
    for the [p] of any sequence, made one after the other, all return, and
    [get_cart(u)] then returns exactly that sequence, in call order and
    with its duplicates. *)
Theorem adds_then_get
    (float_repr : string -> string) (u : string) (ps : list Z) (w : world) :
  cart_row w u = None ->
  exists w', add_all float_repr u ps w = (Returned tt, w')
             /\ fst (get_cart u w') = Returned (int_list ps).
Proof.
  intros Hno.
  assert (H : holds float_repr w u []) by (unfold holds; now rewrite Hno).
  destruct (add_all_holds float_repr u ps [] w H) as (w' & Hrun & Hw').
  exists w'. split; [exact Hrun |].
  now apply (get_cart_holds float_repr).
Qed.

Lemma adds_then_get_witness :
  cart_row initial_world "alice" = None
  /\ exists w', add_all repr_lexeme "alice" [10; 20; 10] initial_world
                = (Returned tt, w')
                /\ fst (get_cart "alice" w') = Returned (int_list [10; 20; 10]).
Proof.
  split; [reflexivity |].
  apply (adds_then_get repr_lexeme "alice" [10; 20; 10] initial_world).
  reflexivity.
Defined.

Lemma add_to_cart_replaces (float_repr : string -> string)
    (u : string) (p : Z) (w : world) (r : row) (items : list pyval) :
  cart_row w u = Some r ->
  json_loads (contents r) = Some (PList items) ->
  fst (add_to_cart float_repr u p w) = Returned tt
  /\ cart_row (snd (add_to_cart float_repr u p w)) u
     = Some (Row (new_rowid (stored w))
                 (json_dumps float_repr (PList (items ++ [PInt p]))) 0)
  /\ new_rowid (stored w) <> cart_id r.
Proof.
  intros Hrow Hl. rewrite add_to_cart_run, Hrow, Hl. simpl.
  split; [reflexivity |]. split.
  - now rewrite cart_row_finish, insert_or_replace_lookup.
  - pose proof (new_rowid_above (stored w) u r Hrow). lia.
Qed.

(** The row [add_to_cart] writes, read back: when the operations read the
    cart of [u] as the list of integers [l], the row of [u] after
    [add_to_cart(u, p)] has a new id and the cost 0, its contents decode
    to [l] with [p] at the end, and [get_cart(u)] returns that list. *)
Lemma add_to_cart_read_back (float_repr : string -> string)
    (u : string) (p : Z) (w : world) (l : list Z) :
  cart_value w u = Some (int_list l) ->
  fst (add_to_cart float_repr u p w) = Returned tt
  /\ (exists r',
        cart_row (snd (add_to_cart float_repr u p w)) u = Some r'
        /\ cart_id r' = new_rowid (stored w)
        /\ cost r' = 0
        /\ json_loads (contents r') = Some (int_list (l ++ [p])))
  /\ fst (get_cart u (snd (add_to_cart float_repr u p w)))
     = Returned (int_list (l ++ [p])).
Proof.
  unfold cart_value. intros Hl.
  assert (Hrun : add_to_cart float_repr u p w
                 = (Returned tt,
                    finish w (sql_insert_or_replace u
                                (json_dumps float_repr (int_list (l ++ [p]))) 0
                                (stored w)))).
  { rewrite add_to_cart_run, Hl.
    unfold int_list at 1. cbv iota beta. now rewrite int_list_snoc. }
  rewrite Hrun. cbn [fst snd].
  split; [reflexivity |]. split.
  - eexists. split; [now rewrite cart_row_finish, insert_or_replace_lookup |].
    cbn [cart_id cost contents].
    split; [reflexivity |]. split; [reflexivity |].
    apply loads_dumps_int_list.
  - rewrite get_cart_run. cbn [fst].
    rewrite cart_row_finish, insert_or_replace_lookup. cbn [contents].
    now rewrite loads_dumps_int_list.
Qed.

(** C7. [add_to_cart] is an upsert on the username.  With no row for [u]
    it creates one, with the cost 0, whose contents decode to the list of
    [p] alone, and [get_cart(u)] then returns that list.  With a row whose
    contents decode to a list of integers, however the text is laid out,
    it replaces the row: the new row has the cost 0 and an id different
    from the id of the row replaced, its contents decode to the old list
    with [p] appended, and [get_cart(u)] then returns that list.  With a
    row whose contents decode to any list, the new contents are the text
    [json.dumps] prints for the old list with [p] appended.  An execution
    in which the id changes exists: the row of id 1 holding the list of 1
    becomes the row of id 2 holding 1 and 2. *)
Theorem add_to_cart_upsert (float_repr : string -> string) :
  (forall (u : string) (p : Z) (w : world),
      cart_row w u = None ->
      fst (add_to_cart float_repr u p w) = Returned tt
      /\ cart_row (snd (add_to_cart float_repr u p w)) u
         = Some (Row (new_rowid (stored w))
                     (json_dumps float_repr (PList [PInt p])) 0)
      /\ json_loads (json_dumps float_repr (PList [PInt p]))
         = Some (PList [PInt p])
      /\ fst (get_cart u (snd (add_to_cart float_repr u p w)))
         = Returned (PList [PInt p]))
  /\ (forall (u : string) (p : Z) (w : world) (r : row) (l : list Z),
        cart_row w u = Some r ->
        json_loads (contents r) = Some (int_list l) ->
        fst (add_to_cart float_repr u p w) = Returned tt
        /\ (exists r',
              cart_row (snd (add_to_cart float_repr u p w)) u = Some r'
              /\ cart_id r' <> cart_id r
              /\ cost r' = 0
              /\ json_loads (contents r') = Some (int_list (l ++ [p])))
        /\ fst (get_cart u (snd (add_to_cart float_repr u p w)))
           = Returned (int_list (l ++ [p])))
  /\ (forall (u : string) (p : Z) (w : world) (r : row) (items : list pyval),
        cart_row w u = Some r ->
        json_loads (contents r) = Some (PList items) ->
        fst (add_to_cart float_repr u p w) = Returned tt
        /\ cart_row (snd (add_to_cart float_repr u p w)) u
           = Some (Row (new_rowid (stored w))
                       (json_dumps float_repr (PList (items ++ [PInt p]))) 0)
        /\ new_rowid (stored w) <> cart_id r)
  /\ cart_row (one_cart "alice" "[1]") "alice" = Some (Row 1 "[1]" 0)
  /\ cart_row (snd (add_to_cart float_repr "alice" 2 (one_cart "alice" "[1]")))
       "alice" = Some (Row 2 "[1, 2]" 0)
  /\ fst (get_cart "alice"
            (snd (add_to_cart float_repr "alice" 2 (one_cart "alice" "[1]"))))
     = Returned (PList [PInt 1; PInt 2]).
Proof.
  split; [| split; [| split]].
  - intros u p w Hno.
    assert (Hv : cart_value w u = Some (int_list [])).
    { unfold cart_value. now rewrite Hno. }
    destruct (add_to_cart_read_back float_repr u p w [] Hv) as (Hret & _ & Hget).
    split; [exact Hret |]. split.
    + rewrite add_to_cart_run, Hno. cbn [snd].
      now rewrite cart_row_finish, insert_or_replace_lookup.
    + split; [exact (loads_dumps_int_list float_repr [p]) | exact Hget].
  - intros u p w r l Hrow Hl.
    assert (Hv : cart_value w u = Some (int_list l)).
    { unfold cart_value. now rewrite Hrow. }
    destruct (add_to_cart_read_back float_repr u p w l Hv)
      as (Hret & (r' & Hr' & Hid & Hcost & Hloads) & Hget).
    split; [exact Hret |]. split; [| exact Hget].
    exists r'. split; [exact Hr' |]. split; [| split; [exact Hcost | exact Hloads]].
    rewrite Hid. pose proof (new_rowid_above (stored w) u r Hrow). lia.
  - apply add_to_cart_replaces.
  - assert (Hrow : cart_row (one_cart "alice" "[1]") "alice"
                   = Some (Row 1 "[1]" 0)) by reflexivity.
    assert (Hv : cart_value (one_cart "alice" "[1]") "alice"
                 = Some (int_list [1])) by reflexivity.
    destruct (add_to_cart_read_back float_repr "alice" 2 _ [1] Hv)
      as (_ & _ & Hget).
    destruct (add_to_cart_replaces float_repr "alice" 2 _ _ [PInt 1]
                Hrow eq_refl) as (_ & Hnew & _).
    split; [exact Hrow |]. split; [| exact Hget].
    rewrite Hnew. reflexivity.
Qed.

Lemma remove_from_cart_present
    (float_repr : string -> string) (float_eq_int : Z -> string -> bool)
    (u : string) (p : Z) (w : world) (r : row) (l1 l2 : list Z) :
  cart_row w u = Some r ->
  json_loads (contents r) = Some (int_list (l1 ++ p :: l2)) ->
  p ∉ l1 ->
  remove_from_cart float_repr float_eq_int u p w
  = (Returned tt,
     finish w (sql_insert_or_replace u
                 (json_dumps float_repr (int_list (l1 ++ l2))) 0 (stored w))).
Proof.
  intros Hrow Hl Hnotin.
  assert (Hin : p ∈ l1 ++ p :: l2) by (apply elem_of_app; right; now left).
  rewrite remove_from_cart_run, Hrow, Hl. unfold int_list.
  rewrite contains_int_list, (bool_decide_eq_true_2 _ Hin).
  now rewrite (remove_first_int _ _ _ _ Hnotin).
Qed.

Lemma remove_from_cart_absent
    (float_repr : string -> string) (float_eq_int : Z -> string -> bool)
    (u : string) (p : Z) (w : world) (r : row) (l : list Z) :
  cart_row w u = Some r ->
  json_loads (contents r) = Some (int_list l) ->
  p ∉ l ->
  remove_from_cart float_repr float_eq_int u p w
  = (Returned tt, finish w (stored w)).
Proof.
  intros Hrow Hl Hnotin.
  rewrite remove_from_cart_run, Hrow, Hl. unfold int_list.
  now rewrite contains_int_list, (bool_decide_eq_false_2 _ Hnotin).
Qed.

(** C2. [remove_from_cart(u, p)] on a row whose contents are a list of
    integers in which [p] occurs removes the first occurrence of [p] and
    nothing else, and replaces the row, with cost zero; when [p] does not
    occur in the contents, or [u] has no row, it returns without raising
    and leaves the stored state as it was. *)
Theorem remove_from_cart_first
    (float_repr : string -> string) (float_eq_int : Z -> string -> bool)
    (u : string) (p : Z) (w : world) :
  (forall (r : row) (l : list Z),
      cart_row w u = Some r ->
      json_loads (contents r) = Some (int_list l) ->
      p ∈ l ->
      exists l1 l2,
        l = l1 ++ p :: l2
        /\ (p ∉ l1)
        /\ fst (remove_from_cart float_repr float_eq_int u p w) = Returned tt
        /\ cart_row (snd (remove_from_cart float_repr float_eq_int u p w)) u
           = Some (Row (new_rowid (stored w))
                       (json_dumps float_repr (int_list (l1 ++ l2))) 0)
        /\ fst (get_cart u (snd (remove_from_cart float_repr float_eq_int u p w)))
           = Returned (int_list (l1 ++ l2)))
  /\ (forall (r : row) (l : list Z),
        cart_row w u = Some r ->
        json_loads (contents r) = Some (int_list l) ->
        p ∉ l ->
        fst (remove_from_cart float_repr float_eq_int u p w) = Returned tt
        /\ stored (snd (remove_from_cart float_repr float_eq_int u p w)) = stored w)
  /\ (cart_row w u = None ->
      fst (remove_from_cart float_repr float_eq_int u p w) = Returned tt
      /\ stored (snd (remove_from_cart float_repr float_eq_int u p w)) = stored w).
Proof.
  split; [| split].
  - intros r l Hrow Hl Hin.
    destruct (list_elem_of_split_l l p Hin) as (l1 & l2 & -> & Hnotin).
    exists l1, l2. split; [reflexivity |]. split; [exact Hnotin |].
    rewrite (remove_from_cart_present _ _ _ _ _ _ _ _ Hrow Hl Hnotin).
    cbn [fst snd]. split; [reflexivity |]. split.
    + now rewrite cart_row_finish, insert_or_replace_lookup.
    + apply (get_cart_holds float_repr), holds_written.
  - intros r l Hrow Hl Hnotin.
    rewrite (remove_from_cart_absent _ _ _ _ _ _ _ Hrow Hl Hnotin). now split.
  - intros Hno. rewrite remove_from_cart_run, Hno. now split.
Qed.

(** C6, as stated, fails.  The stored text of an array that holds a string
    is valid JSON but does not decode to an array of integers, and none of
    the three operations raises on it: [get_cart] returns the decoded
    value as it is, [add_to_cart] appends to it and [remove_from_cart]
    finds nothing to remove. *)
Lemma non_integer_array_accepted :
  cart_row (one_cart "alice" text_str_array) "alice"
  = Some (Row 1 text_str_array 0)
  /\ not_int_array text_str_array
  /\ fst (get_cart "alice" (one_cart "alice" text_str_array)) = Returned str_array
  /\ fst (add_to_cart repr_lexeme "alice" 5 (one_cart "alice" text_str_array))
     = Returned tt
  /\ fst (remove_from_cart repr_lexeme never_eq "alice" 5
            (one_cart "alice" text_str_array)) = Returned tt.
Proof.
  assert (Hl : json_loads text_str_array = Some str_array)
    by (vm_compute; reflexivity).
  split; [reflexivity |]. split; [| split; [| split]].
  - intros l. rewrite Hl. unfold str_array, int_list.
    destruct l as [|z [|z' l]]; discriminate.
  - rewrite get_cart_run.
    change (cart_row (one_cart "alice" text_str_array) "alice")
      with (Some (Row 1 text_str_array 0)).
    cbn [contents]. now rewrite Hl.
  - rewrite add_to_cart_run.
    change (cart_row (one_cart "alice" text_str_array) "alice")
      with (Some (Row 1 text_str_array 0)).
    cbn [contents]. now rewrite Hl.
  - rewrite remove_from_cart_run.
    change (cart_row (one_cart "alice" text_str_array) "alice")
      with (Some (Row 1 text_str_array 0)).
    cbn [contents]. now rewrite Hl.
Qed.

(** C6, amended.  When the stored contents of [u] are not JSON text, so
    that decoding fails, each of [get_cart], [add_to_cart] and
    [remove_from_cart] raises the decoding error, and the stored state is
    left as it was: nothing is sanitized or repaired. *)
Theorem undecodable_contents_raise
    (float_repr : string -> string) (float_eq_int : Z -> string -> bool)
    (u : string) (p : Z) (w : world) (r : row) :
  cart_row w u = Some r ->
  json_loads (contents r) = None ->
  get_cart u w = (Raised JSONDecodeError, finish w (stored w))
  /\ add_to_cart float_repr u p w = (Raised JSONDecodeError, finish w (stored w))
  /\ remove_from_cart float_repr float_eq_int u p w
     = (Raised JSONDecodeError, finish w (stored w)).
Proof.
  intros Hrow Hl. repeat split.
  - now rewrite get_cart_run, Hrow, Hl.
  - now rewrite add_to_cart_run, Hrow, Hl.
  - now rewrite remove_from_cart_run, Hrow, Hl.
Qed.

Lemma undecodable_contents_raise_witness :
  cart_row (one_cart "alice" "[1, 2") "alice" = Some (Row 1 "[1, 2" 0)
  /\ json_loads (contents (Row 1 "[1, 2" 0)) = None
  /\ get_cart "alice" (one_cart "alice" "[1, 2")
     = (Raised JSONDecodeError,
        finish (one_cart "alice" "[1, 2") (stored (one_cart "alice" "[1, 2")))
  /\ add_to_cart repr_lexeme "alice" 3 (one_cart "alice" "[1, 2")
     = (Raised JSONDecodeError,
        finish (one_cart "alice" "[1, 2") (stored (one_cart "alice" "[1, 2")))
  /\ remove_from_cart repr_lexeme never_eq "alice" 3 (one_cart "alice" "[1, 2")
     = (Raised JSONDecodeError,
        finish (one_cart "alice" "[1, 2") (stored (one_cart "alice" "[1, 2"))).
Proof.
  assert (Hrow : cart_row (one_cart "alice" "[1, 2") "alice"
                 = Some (Row 1 "[1, 2" 0)) by reflexivity.
  assert (Hl : json_loads (contents (Row 1 "[1, 2" 0)) = None)
    by (vm_compute; reflexivity).
  split; [exact Hrow |]. split; [exact Hl |].
  exact (undecodable_contents_raise repr_lexeme never_eq "alice" 3
           (one_cart "alice" "[1, 2") (Row 1 "[1, 2" 0) Hrow Hl).
Defined.

(** ** The scenarios of the specification *)

(** [add_to_cart("alice", 10)], [add_to_cart("alice", 20)], then
    [get_cart("alice")] gives [[10, 20]]; after [remove_from_cart("alice", 10)]
    it gives [[20]]; after [delete_cart("alice")] it gives [[]]. *)
Example scenario_alice :
  let w1 := snd (add_to_cart repr_lexeme "alice" 10 initial_world) in
  let w2 := snd (add_to_cart repr_lexeme "alice" 20 w1) in
  let w3 := snd (remove_from_cart repr_lexeme never_eq "alice" 10 w2) in
  let w4 := snd (delete_cart "alice" w3) in
  fst (get_cart "alice" w2) = Returned (int_list [10; 20])
  /\ cart_row w2 "alice" = Some (Row 2 "[10, 20]" 0)
  /\ fst (get_cart "alice" w3) = Returned (int_list [20])
  /\ fst (get_cart "alice" w4) = Returned (int_list []).
Proof. vm_compute. repeat split. Qed.

(** [remove_from_cart("bob", 5)] on a user with no row returns and creates
    no row. *)
Example scenario_bob :
  fst (remove_from_cart repr_lexeme never_eq "bob" 5 initial_world) = Returned tt
  /\ cart_row (snd (remove_from_cart repr_lexeme never_eq "bob" 5 initial_world))
       "bob" = None.
Proof. vm_compute. split; reflexivity. Qed.

(** ** Further properties of the code

    *** [connect], [create_tables] and [with_connection] *)

(** X1. [connect] returns a new, open connection, placed after the
    existing ones.  When [carts.db] does not exist it creates the file
    with an empty table; a file that exists is left as it is (no table is
    created again); in both cases the connection sees what the file
    holds. *)
Theorem connect_creates_once (w : world) :
  exists w',
    connect w = (Returned (length (conns w)), w')
    /\ (file w = None -> file w' = Some empty_db)
    /\ (forall db, file w = Some db -> file w' = Some db)
    /\ conns w' = conns w ++ [{| view := file w'; closed := false |}].
Proof.
  rewrite connect_run. eexists. split; [reflexivity |].
  unfold stored, opened. cbn [file conns].
  repeat split.
  - now intros ->.
  - now intros db ->.
Qed.


(** X3. [with_connection] hands the result of the wrapped function on:
    what it returns is returned and what it raises is raised, unchanged.
    The wrapper itself commits nothing (the file is as the function left
    it), and the connection is closed in both cases, so that a statement
    on it afterwards raises. *)
Theorem with_connection_result {A} (func : nat -> M A) (w : world)
    (r : outcome A) (f v : option database) :
  func (length (conns w)) (opened (conns w) (Some (stored w)) (Some (stored w)))
  = (r, opened (conns w) f v) ->
  fst (with_connection func w) = r
  /\ file (snd (with_connection func w)) = f
  /\ conns (snd (with_connection func w))
     = conns w ++ [{| view := v; closed := true |}]
  /\ fst (the_db (length (conns w)) (snd (with_connection func w)))
     = Raised ProgrammingError.
Proof.
  intros Hbody. rewrite (with_connection_run func w r f v Hbody).
  cbn [fst snd file conns]. repeat split.
  unfold the_db, mbind, M_bind, the_conn. cbn [conns].
  now rewrite lookup_last.
Qed.

Lemma with_connection_result_witness :
  (fun _ : nat => raise (A := unit) ValueError) (length (conns initial_world))
    (opened (conns initial_world) (Some (stored initial_world))
       (Some (stored initial_world)))
  = (Raised ValueError, opened (conns initial_world) (Some empty_db) (Some empty_db))
  /\ fst (with_connection (fun _ : nat => raise (A := unit) ValueError) initial_world)
     = Raised ValueError.
Proof.
  split; [reflexivity |].
  exact (proj1 (with_connection_result
                  (fun _ : nat => raise (A := unit) ValueError) initial_world
                  (Raised ValueError) (Some empty_db) (Some empty_db) eq_refl)).
Defined.

(** X4. After any call of the four operations the file [carts.db] exists,
    also after a call that only reads and after a call that raises. *)
Theorem file_exists_after
    (float_repr : string -> string) (float_eq_int : Z -> string -> bool)
    (c : call) (w : world) :
  file (after float_repr float_eq_int c w)
  = Some (stored (after float_repr float_eq_int c w)).
Proof.
  destruct (after_writes float_repr float_eq_int c w) as (db & -> & _).
  reflexivity.
Qed.

(** *** Contents that are JSON, but no list *)

(** X5. When the contents of [u] decode to a value that is not a list (an
    object, a string, a number, [true], [false] or [null]), [add_to_cart]
    raises [AttributeError], the value having no [append], and writes
    nothing. *)
Theorem add_to_non_list_raises
    (float_repr : string -> string)
    (u : string) (p : Z) (w : world) (r : row) (v : pyval) :
  cart_row w u = Some r ->
  json_loads (contents r) = Some v ->
  (forall items, v <> PList items) ->
  add_to_cart float_repr u p w = (Raised AttributeError, finish w (stored w)).
Proof.
  intros Hrow Hl Hv. rewrite add_to_cart_run, Hrow, Hl.
  destruct v; try reflexivity. now destruct (Hv items).
Qed.

Lemma add_to_non_list_raises_witness :
  cart_row (one_cart "alice" "{}") "alice" = Some (Row 1 "{}" 0)
  /\ json_loads (contents (Row 1 "{}" 0)) = Some (PDict [])
  /\ (forall items, PDict [] <> PList items)
  /\ add_to_cart repr_lexeme "alice" 5 (one_cart "alice" "{}")
     = (Raised AttributeError,
        finish (one_cart "alice" "{}") (stored (one_cart "alice" "{}"))).
Proof.
  assert (Hrow : cart_row (one_cart "alice" "{}") "alice" = Some (Row 1 "{}" 0))
    by reflexivity.
  assert (Hl : json_loads (contents (Row 1 "{}" 0)) = Some (PDict []))
    by (vm_compute; reflexivity).
  assert (Hv : forall items, PDict [] <> PList items) by discriminate.
  split; [exact Hrow |]. split; [exact Hl |]. split; [exact Hv |].
  exact (add_to_non_list_raises repr_lexeme "alice" 5 (one_cart "alice" "{}")
           (Row 1 "{}" 0) (PDict []) Hrow Hl Hv).
Defined.

(** X6. When the contents of [u] decode to a value that is not a list,
    [remove_from_cart] writes nothing: on an object it returns (an [int]
    is none of its keys), on any other value it raises [TypeError]. *)
Theorem remove_from_non_list
    (float_repr : string -> string) (float_eq_int : Z -> string -> bool)
    (u : string) (p : Z) (w : world) (r : row) (v : pyval) :
  cart_row w u = Some r ->
  json_loads (contents r) = Some v ->
  (forall items, v <> PList items) ->
  remove_from_cart float_repr float_eq_int u p w
  = (match v with
     | PDict _ => Returned tt
     | _ => Raised TypeError
     end, finish w (stored w)).
Proof.
  intros Hrow Hl Hv. rewrite remove_from_cart_run, Hrow, Hl.
  destruct v; try reflexivity. now destruct (Hv items).
Qed.

Lemma remove_from_non_list_witness :
  cart_row (one_cart "alice" "null") "alice" = Some (Row 1 "null" 0)
  /\ json_loads (contents (Row 1 "null" 0)) = Some PNone
  /\ (forall items, PNone <> PList items)
  /\ remove_from_cart repr_lexeme never_eq "alice" 5 (one_cart "alice" "null")
     = (Raised TypeError,
        finish (one_cart "alice" "null") (stored (one_cart "alice" "null"))).
Proof.
  assert (Hrow : cart_row (one_cart "alice" "null") "alice"
                 = Some (Row 1 "null" 0)) by reflexivity.
  assert (Hl : json_loads (contents (Row 1 "null" 0)) = Some PNone)
    by (vm_compute; reflexivity).
  assert (Hv : forall items, PNone <> PList items) by discriminate.
  split; [exact Hrow |]. split; [exact Hl |]. split; [exact Hv |].
  exact (remove_from_non_list repr_lexeme never_eq "alice" 5
           (one_cart "alice" "null") (Row 1 "null" 0) PNone Hrow Hl Hv).
Defined.

(** X7. [get_cart] raises exactly when the user has a row whose contents
    are not JSON text; in every other case it returns what the operations
    read as the cart, a list of integers or not. *)
Theorem get_cart_raises_iff (u : string) (w : world) :
  ((exists e, fst (get_cart u w) = Raised e)
   <-> exists r, cart_row w u = Some r /\ json_loads (contents r) = None)
  /\ (forall v, cart_value w u = Some v -> fst (get_cart u w) = Returned v).
Proof.
  rewrite get_cart_run. unfold cart_value. cbn [fst].
  destruct (cart_row w u) as [r|].
  - destruct (json_loads (contents r)) as [v|] eqn:Hl; split.
    + split; [intros [e He]; discriminate |].
      intros (r' & [= <-] & Hn). congruence.
    + now intros v' [= <-].
    + split; [| eauto]. intros _. exists r. now split.
    + discriminate.
  - split.
    + split; [intros [e He]; discriminate | intros (r & Hr & _); discriminate].
    + now intros v [= <-].
Qed.

(** *** How the operations compose *)

Lemma add_to_cart_value (float_repr : string -> string)
    (u : string) (p : Z) (w : world) (l : list Z) :
  cart_value w u = Some (int_list l) ->
  add_to_cart float_repr u p w
  = (Returned tt,
     finish w (sql_insert_or_replace u
                 (json_dumps float_repr (int_list (l ++ [p]))) 0 (stored w))).
Proof.
  unfold cart_value. intros H. rewrite add_to_cart_run, H.
  unfold int_list at 1. cbv iota beta. now rewrite int_list_snoc.
Qed.

Lemma get_cart_value (u : string) (w : world) (v : pyval) :
  cart_value w u = Some v -> fst (get_cart u w) = Returned v.
Proof.
  unfold cart_value. intros H. rewrite get_cart_run. cbn [fst].
  destruct (cart_row w u) as [r|]; [now rewrite H | congruence].
Qed.

(** X8. Adds extend the cart at its end, whatever the cart was: when the
    operations read the cart of [u] as the list [l] (no row, or contents
    that decode to [l], however the text is laid out), the calls
    [add_to_cart(u, p)] for the [p] of a sequence all return and
    [get_cart(u)] then returns [l] followed by the sequence. *)
Theorem adds_extend_cart
    (float_repr : string -> string) (u : string) (ps l : list Z) (w : world) :
  cart_value w u = Some (int_list l) ->
  exists w', add_all float_repr u ps w = (Returned tt, w')
             /\ fst (get_cart u w') = Returned (int_list (l ++ ps)).
Proof.
  intros Hv. destruct ps as [|p ps].
  - exists w. rewrite app_nil_r. split; [reflexivity |].
    now apply get_cart_value.
  - destruct (add_all_holds float_repr u ps (l ++ [p]) _
                (holds_written float_repr w u (l ++ [p]) (stored w)))
      as (w' & Hrun & Hw').
    exists w'. split.
    + cbn [add_all].
      rewrite (bind_returned _ _ _ _ _ (add_to_cart_value float_repr u p w l Hv)).
      exact Hrun.
    + rewrite <- app_assoc in Hw'. now apply (get_cart_holds float_repr).
Qed.

Lemma adds_extend_cart_witness :
  cart_value (one_cart "alice" "[1,2]") "alice" = Some (int_list [1; 2])
  /\ exists w', add_all repr_lexeme "alice" [3; 1] (one_cart "alice" "[1,2]")
                = (Returned tt, w')
                /\ fst (get_cart "alice" w') = Returned (int_list ([1; 2] ++ [3; 1])).
Proof.
  assert (Hv : cart_value (one_cart "alice" "[1,2]") "alice"
               = Some (int_list [1; 2])) by (vm_compute; reflexivity).
  split; [exact Hv |].
  exact (adds_extend_cart repr_lexeme "alice" [3; 1] [1; 2]
           (one_cart "alice" "[1,2]") Hv).
Defined.

(** X9. [add_to_cart(u, p)] followed by [remove_from_cart(u, p)]: both
    return.  When [p] was not in the cart, the cart is afterwards what it
    was.  When it was, the removal takes the first occurrence, not the one
    just added: an earlier [p] goes and the new one stays at the end. *)
Theorem add_then_remove
    (float_repr : string -> string) (float_eq_int : Z -> string -> bool)
    (u : string) (p : Z) (l : list Z) (w : world) :
  cart_value w u = Some (int_list l) ->
  fst (add_to_cart float_repr u p w) = Returned tt
  /\ fst (remove_from_cart float_repr float_eq_int u p
            (snd (add_to_cart float_repr u p w))) = Returned tt
  /\ (p ∉ l ->
      fst (get_cart u (snd (remove_from_cart float_repr float_eq_int u p
                              (snd (add_to_cart float_repr u p w)))))
      = Returned (int_list l))
  /\ (forall l1 l2, l = l1 ++ p :: l2 -> p ∉ l1 ->
      fst (get_cart u (snd (remove_from_cart float_repr float_eq_int u p
                              (snd (add_to_cart float_repr u p w)))))
      = Returned (int_list (l1 ++ l2 ++ [p]))).
Proof.
  intros Hv. rewrite (add_to_cart_value float_repr u p w l Hv). cbn [fst snd].
  set (w1 := finish w _).
  assert (Hrow : cart_row w1 u
                 = Some (Row (new_rowid (stored w))
                             (json_dumps float_repr (int_list (l ++ [p]))) 0))
    by (unfold w1; now rewrite cart_row_finish, insert_or_replace_lookup).
  assert (Hgen : forall l1 l2, l ++ [p] = l1 ++ p :: l2 -> p ∉ l1 ->
            remove_from_cart float_repr float_eq_int u p w1
            = (Returned tt,
               finish w1 (sql_insert_or_replace u
                            (json_dumps float_repr (int_list (l1 ++ l2))) 0
                            (stored w1)))).
  { intros l1 l2 Hsplit Hnotin.
    apply (remove_from_cart_present float_repr float_eq_int u p w1 _ l1 l2 Hrow);
      [| exact Hnotin].
    cbn [contents]. rewrite <- Hsplit. apply loads_dumps_int_list. }
  split; [reflexivity |].
  destruct (list_elem_of_split_l (l ++ [p]) p) as (k1 & k2 & Hsplit & Hnotin);
    [apply elem_of_app; right; now left |].
  split; [now rewrite (Hgen k1 k2 Hsplit Hnotin) |]. split.
  - intros Hnot. rewrite (Hgen l [] eq_refl Hnot). cbn [snd].
    rewrite <- (app_nil_r l) at 2.
    apply (get_cart_holds float_repr), holds_written.
  - intros l1 l2 -> Hnot.
    rewrite (Hgen l1 (l2 ++ [p])); [| now rewrite <- app_assoc | exact Hnot].
    cbn [snd]. apply (get_cart_holds float_repr), holds_written.
Qed.

Lemma add_then_remove_witness :
  cart_value (one_cart "alice" "[7, 8, 7]") "alice" = Some (int_list [7; 8; 7])
  /\ fst (get_cart "alice"
            (snd (remove_from_cart repr_lexeme never_eq "alice" 7
                    (snd (add_to_cart repr_lexeme "alice" 7
                            (one_cart "alice" "[7, 8, 7]"))))))
     = Returned (int_list ([] ++ [8; 7] ++ [7])).
Proof.
  assert (Hv : cart_value (one_cart "alice" "[7, 8, 7]") "alice"
               = Some (int_list [7; 8; 7])) by (vm_compute; reflexivity).
  split; [exact Hv |].
  refine (proj2 (proj2 (proj2 (add_then_remove repr_lexeme never_eq "alice" 7
                                 [7; 8; 7] (one_cart "alice" "[7, 8, 7]") Hv)))
            [] [8; 7] eq_refl _).
  intros H. inversion H.
Defined.

(** A call leaves the rows of the other users as they are. *)
Lemma after_other
    (float_repr : string -> string) (float_eq_int : Z -> string -> bool)
    (c : call) (w : world) (x : string) :
  user_of c <> x ->
  cart_row (after float_repr float_eq_int c w) x = cart_row w x.
Proof.
  intros Hne. destruct c as [u|u p|u p|u]; cbn [after user_of] in *.
  - now rewrite get_cart_run.
  - destruct (add_to_cart_writes float_repr u p w) as [-> | [t ->]];
      rewrite cart_row_finish; [reflexivity |].
    now apply insert_or_replace_other.
  - destruct (remove_from_cart_writes float_repr float_eq_int u p w)
      as [-> | [t ->]]; rewrite cart_row_finish; [reflexivity |].
    now apply insert_or_replace_other.
  - rewrite delete_cart_run. cbn [snd]. rewrite cart_row_finish.
    now apply delete_other.
Qed.

(** X10. Rows come and go through one operation each: only [delete_cart]
    removes a row (after any other call, a user who had a row still has
    one, an empty cart included), and only [add_to_cart] creates one
    (after any other call, a user without row is still without). *)
Theorem rows_created_and_removed
    (float_repr : string -> string) (float_eq_int : Z -> string -> bool)
    (c : call) (w : world) (x : string) :
  ((forall u, c <> DeleteCart u) ->
   is_Some (cart_row w x) ->
   is_Some (cart_row (after float_repr float_eq_int c w) x))
  /\ ((forall u p, c <> AddToCart u p) ->
      cart_row w x = None ->
      cart_row (after float_repr float_eq_int c w) x = None).
Proof.
  split.
  - intros Hc Hsome.
    destruct (decide (user_of c = x)) as [<- | Hne];
      [| now rewrite after_other].
    destruct c as [u|u p|u p|u]; cbn [after user_of] in *.
    + now rewrite get_cart_run.
    + destruct (add_to_cart_writes float_repr u p w) as [-> | [t ->]];
        rewrite cart_row_finish; [exact Hsome |].
      rewrite insert_or_replace_lookup. eauto.
    + destruct (remove_from_cart_writes float_repr float_eq_int u p w)
        as [-> | [t ->]]; rewrite cart_row_finish; [exact Hsome |].
      rewrite insert_or_replace_lookup. eauto.
    + now destruct (Hc u).
  - intros Hc Hnone.
    destruct (decide (user_of c = x)) as [<- | Hne];
      [| now rewrite after_other].
    destruct c as [u|u p|u p|u]; cbn [after user_of] in *.
    + now rewrite get_cart_run.
    + now destruct (Hc u p).
    + now rewrite remove_from_cart_run, Hnone.
    + rewrite delete_cart_run. cbn [snd]. rewrite cart_row_finish.
      apply delete_lookup.
Qed.

(** X11. [delete_cart] resets a cart, whatever it held: after it,
    [add_to_cart(u, p)] returns and [get_cart(u)] returns the list of [p]
    alone.  This holds also for contents that no operation could read. *)
Theorem delete_then_add
    (float_repr : string -> string) (u : string) (p : Z) (w : world) :
  fst (add_to_cart float_repr u p (snd (delete_cart u w))) = Returned tt
  /\ fst (get_cart u (snd (add_to_cart float_repr u p (snd (delete_cart u w)))))
     = Returned (int_list [p]).
Proof.
  rewrite delete_cart_run. cbn [snd].
  assert (Hv : cart_value (finish w (sql_delete u (stored w))) u
               = Some (int_list [])).
  { unfold cart_value. now rewrite cart_row_finish, delete_lookup. }
  rewrite (add_to_cart_value float_repr u p _ [] Hv). cbn [fst snd].
  split; [reflexivity |].
  apply (get_cart_holds float_repr), holds_written.
Qed.

(** X12. [delete_cart] is idempotent: a second call for the same user
    returns as the first does and leaves the stored state of the first. *)
Theorem delete_cart_twice (u : string) (w : world) :
  fst (delete_cart u (snd (delete_cart u w))) = Returned tt
  /\ stored (snd (delete_cart u (snd (delete_cart u w))))
     = stored (snd (delete_cart u w)).
Proof.
  rewrite !delete_cart_run. cbn [fst snd]. split; [reflexivity |].
  rewrite !stored_finish. apply delete_absent, delete_lookup.
Qed.

(** *** The states the operations reach *)

Lemma holds_same (float_repr : string -> string) (w w' : world)
    (x : string) (l : list Z) :
  cart_row w' x = cart_row w x ->
  holds float_repr w x l -> holds float_repr w' x l.
Proof. unfold holds. now intros ->. Qed.

Lemma remove_from_cart_holds
    (float_repr : string -> string) (float_eq_int : Z -> string -> bool)
    (u : string) (p : Z) (w : world) (l : list Z) :
  holds float_repr w u l ->
  exists l',
    fst (remove_from_cart float_repr float_eq_int u p w) = Returned tt
    /\ holds float_repr (snd (remove_from_cart float_repr float_eq_int u p w)) u l'.
Proof.
  intros H. pose proof H as H'. unfold holds in H'.
  destruct (cart_row w u) as [r|] eqn:Hrow.
  - assert (Hl : json_loads (contents r) = Some (int_list l))
      by (rewrite H'; apply loads_dumps_int_list).
    destruct (decide (p ∈ l)) as [Hin | Hnotin].
    + destruct (list_elem_of_split_l l p Hin) as (l1 & l2 & -> & Hnot).
      exists (l1 ++ l2).
      rewrite (remove_from_cart_present _ _ _ _ _ _ _ _ Hrow Hl Hnot).
      split; [reflexivity | apply holds_written].
    + exists l.
      rewrite (remove_from_cart_absent _ _ _ _ _ _ _ Hrow Hl Hnotin).
      split; [reflexivity |]. now apply (holds_same float_repr w).
  - exists l. rewrite remove_from_cart_run, Hrow.
    split; [reflexivity |]. now apply (holds_same float_repr w).
Qed.

(** In a state the operations reach, every cart holds a list of integers,
    in the text [json.dumps] gives it. *)
Lemma reachable_holds
    (float_repr : string -> string) (float_eq_int : Z -> string -> bool)
    (w : world) :
  reachable float_repr float_eq_int w ->
  forall x, exists l, holds float_repr w x l.
Proof.
  induction 1 as [|w c _ IH]; intros x.
  - exists []. reflexivity.
  - destruct (IH x) as [l Hl].
    destruct (decide (user_of c = x)) as [<- | Hne].
    2:{ exists l. apply (holds_same float_repr w); [| exact Hl].
        now apply after_other. }
    destruct c as [u|u p|u p|u]; cbn [after user_of] in *.
    + exists l. apply (holds_same float_repr w); [| exact Hl].
      now rewrite get_cart_run.
    + exists (l ++ [p]). rewrite (add_to_cart_holds float_repr w u l p Hl).
      apply holds_written.
    + destruct (remove_from_cart_holds float_repr float_eq_int u p w l Hl)
        as (l' & _ & Hl'). now exists l'.
    + exists []. rewrite delete_cart_run. cbn [snd]. unfold holds.
      now rewrite cart_row_finish, delete_lookup.
Qed.

(** X13. In every state that calls of the four operations reach from the
    first one, the contents of every row are the text of a list of
    integers as [json.dumps] prints it, and decode to that list: the
    operations never store anything else. *)
Theorem contents_always_int_list
    (float_repr : string -> string) (float_eq_int : Z -> string -> bool)
    (w : world) (u : string) (r : row) :
  reachable float_repr float_eq_int w ->
  cart_row w u = Some r ->
  exists l, contents r = json_dumps float_repr (int_list l)
            /\ json_loads (contents r) = Some (int_list l).
Proof.
  intros Hreach Hrow.
  destruct (reachable_holds float_repr float_eq_int w Hreach u) as [l Hl].
  unfold holds in Hl. rewrite Hrow in Hl. exists l. split; [exact Hl |].
  rewrite Hl. apply loads_dumps_int_list.
Qed.

Lemma contents_always_int_list_witness :
  reachable repr_lexeme never_eq
    (after repr_lexeme never_eq (AddToCart "alice" 20)
       (after repr_lexeme never_eq (AddToCart "alice" 10) initial_world))
  /\ cart_row (after repr_lexeme never_eq (AddToCart "alice" 20)
                 (after repr_lexeme never_eq (AddToCart "alice" 10) initial_world))
       "alice" = Some (Row 2 "[10, 20]" 0)
  /\ exists l, contents (Row 2 "[10, 20]" 0) = json_dumps repr_lexeme (int_list l)
               /\ json_loads (contents (Row 2 "[10, 20]" 0)) = Some (int_list l).
Proof.
  assert (Hreach : reachable repr_lexeme never_eq
            (after repr_lexeme never_eq (AddToCart "alice" 20)
               (after repr_lexeme never_eq (AddToCart "alice" 10) initial_world)))
    by (do 2 apply reachable_call; apply reachable_initial).
  assert (Hrow : cart_row (after repr_lexeme never_eq (AddToCart "alice" 20)
                   (after repr_lexeme never_eq (AddToCart "alice" 10) initial_world))
                   "alice" = Some (Row 2 "[10, 20]" 0))
    by (vm_compute; reflexivity).
  split; [exact Hreach |]. split; [exact Hrow |].
  exact (contents_always_int_list repr_lexeme never_eq _ "alice" _ Hreach Hrow).
Defined.

(** X14. In a state reached from the first one no call of the four
    operations raises, whatever its arguments, and [get_cart] returns a
    list of integers. *)
Theorem reachable_never_raises
    (float_repr : string -> string) (float_eq_int : Z -> string -> bool)
    (w : world) :
  reachable float_repr float_eq_int w ->
  (forall c, raised float_repr float_eq_int c w = None)
  /\ (forall u, exists l, fst (get_cart u w) = Returned (int_list l)).
Proof.
  intros Hreach.
  pose proof (reachable_holds float_repr float_eq_int w Hreach) as Hall.
  split.
  - intros [u|u p|u p|u]; cbn [raised]; destruct (Hall u) as [l Hl].
    + now rewrite (get_cart_holds float_repr w u l Hl).
    + now rewrite (add_to_cart_holds float_repr w u l p Hl).
    + destruct (remove_from_cart_holds float_repr float_eq_int u p w l Hl)
        as (l' & -> & _). reflexivity.
    + now rewrite delete_cart_run.
  - intros u. destruct (Hall u) as [l Hl]. exists l.
    now apply (get_cart_holds float_repr).
Qed.

Lemma reachable_never_raises_witness :
  reachable repr_lexeme never_eq
    (after repr_lexeme never_eq (RemoveFromCart "alice" 10)
       (after repr_lexeme never_eq (AddToCart "alice" 10) initial_world))
  /\ (forall c, raised repr_lexeme never_eq c
                  (after repr_lexeme never_eq (RemoveFromCart "alice" 10)
                     (after repr_lexeme never_eq (AddToCart "alice" 10)
                        initial_world)) = None).
Proof.
  assert (Hreach : reachable repr_lexeme never_eq
            (after repr_lexeme never_eq (RemoveFromCart "alice" 10)
               (after repr_lexeme never_eq (AddToCart "alice" 10) initial_world)))
    by (do 2 apply reachable_call; apply reachable_initial).
  split; [exact Hreach |].
  exact (proj1 (reachable_never_raises repr_lexeme never_eq _ Hreach)).
Defined.

(** *** The ids of the rows *)

Lemma new_rowid_above_seq (db : database) : seq db < new_rowid db.
Proof. unfold new_rowid. lia. Qed.

Lemma ids_ok_insert (u t : string) (k : Z) (db : database) :
  ids_ok db -> ids_ok (sql_insert_or_replace u t k db).
Proof.
  intros (Hseq & Hrange & Hdist).
  pose proof (new_rowid_above_seq db) as Hnew.
  assert (Hrow : forall x r,
            carts (sql_insert_or_replace u t k db) !! x = Some r ->
            (x = u /\ cart_id r = new_rowid db)
            \/ (x <> u /\ carts db !! x = Some r)).
  { intros x r Hx. destruct (decide (u = x)) as [<- | Hne].
    - rewrite insert_or_replace_lookup in Hx. injection Hx as <-. now left.
    - rewrite insert_or_replace_other in Hx by assumption. right. split; auto. }
  split_and!.
  - cbn [sql_insert_or_replace seq]. lia.
  - intros x r Hx. cbn [sql_insert_or_replace seq].
    destruct (Hrow x r Hx) as [[_ ->] | [_ Hold]]; [lia |].
    specialize (Hrange x r Hold). lia.
  - intros x y r r' Hx Hy Hid.
    destruct (Hrow x r Hx) as [[-> Hr] | [Hxu Hxold]];
      destruct (Hrow y r' Hy) as [[-> Hr'] | [Hyu Hyold]]; try reflexivity.
    + specialize (Hrange y r' Hyold). lia.
    + specialize (Hrange x r Hxold). lia.
    + now apply (Hdist x y r r').
Qed.

Lemma ids_ok_delete (u : string) (db : database) :
  ids_ok db -> ids_ok (sql_delete u db).
Proof.
  intros (Hseq & Hrange & Hdist).
  assert (Hrow : forall x r,
            carts (sql_delete u db) !! x = Some r -> carts db !! x = Some r).
  { intros x r Hx. destruct (decide (u = x)) as [<- | Hne].
    - now rewrite delete_lookup in Hx.
    - now rewrite delete_other in Hx. }
  split_and!.
  - exact Hseq.
  - intros x r Hx. apply (Hrange x r), Hrow, Hx.
  - intros x y r r' Hx Hy. apply (Hdist x y r r'); now apply Hrow.
Qed.

Lemma reachable_ids_ok
    (float_repr : string -> string) (float_eq_int : Z -> string -> bool)
    (w : world) :
  reachable float_repr float_eq_int w -> ids_ok (stored w).
Proof.
  induction 1 as [|w c _ IH].
  - split_and!; [reflexivity | discriminate | discriminate].
  - destruct (after_writes float_repr float_eq_int c w)
      as (db & -> & [-> | [(u & t & ->) | (u & ->)]]); rewrite stored_finish.
    + exact IH.
    + now apply ids_ok_insert.
    + now apply ids_ok_delete.
Qed.

(** X15. In every state reached from the first one the ids are those of a
    primary key with AUTOINCREMENT: every id is at least 1 and at most the
    counter of the table, and two different users never have the same
    id. *)
Theorem ids_are_keys
    (float_repr : string -> string) (float_eq_int : Z -> string -> bool)
    (w : world) :
  reachable float_repr float_eq_int w ->
  (forall u r, cart_row w u = Some r -> 1 <= cart_id r <= seq (stored w))
  /\ (forall u v r r',
        cart_row w u = Some r -> cart_row w v = Some r' ->
        u <> v -> cart_id r <> cart_id r').
Proof.
  intros Hreach.
  destruct (reachable_ids_ok float_repr float_eq_int w Hreach)
    as (_ & Hrange & Hdist).
  split; [exact Hrange |].
  intros u v r r' Hu Hv Hne Hid. apply Hne. now apply (Hdist u v r r').
Qed.

Lemma ids_are_keys_witness :
  reachable repr_lexeme never_eq
    (after repr_lexeme never_eq (AddToCart "bob" 1)
       (after repr_lexeme never_eq (AddToCart "alice" 1) initial_world))
  /\ (forall u v r r',
        cart_row (after repr_lexeme never_eq (AddToCart "bob" 1)
                    (after repr_lexeme never_eq (AddToCart "alice" 1)
                       initial_world)) u = Some r ->
        cart_row (after repr_lexeme never_eq (AddToCart "bob" 1)
                    (after repr_lexeme never_eq (AddToCart "alice" 1)
                       initial_world)) v = Some r' ->
        u <> v -> cart_id r <> cart_id r').
Proof.
  assert (Hreach : reachable repr_lexeme never_eq
            (after repr_lexeme never_eq (AddToCart "bob" 1)
               (after repr_lexeme never_eq (AddToCart "alice" 1) initial_world)))
    by (do 2 apply reachable_call; apply reachable_initial).
  split; [exact Hreach |].
  exact (proj2 (ids_are_keys repr_lexeme never_eq _ Hreach)).
Defined.

(** X16. Ids are not reused.  In a state reached from the first one, a
    row that [add_to_cart] writes, whether it replaces a row or follows a
    [delete_cart], has an id above the id of every row stored before the
    call, the row of the same user included. *)
Theorem ids_never_reused
    (float_repr : string -> string) (float_eq_int : Z -> string -> bool)
    (w : world) (u v : string) (p : Z) (r : row) :
  reachable float_repr float_eq_int w ->
  cart_row w v = Some r ->
  (exists r', cart_row (snd (add_to_cart float_repr u p w)) u = Some r'
              /\ cart_id r < cart_id r')
  /\ (exists r', cart_row (snd (add_to_cart float_repr u p
                                  (snd (delete_cart v w)))) u = Some r'
                 /\ cart_id r < cart_id r').
Proof.
  intros Hreach Hrow.
  destruct (reachable_ids_ok float_repr float_eq_int w Hreach) as (_ & Hrange & _).
  specialize (Hrange v r Hrow).
  split.
  - destruct (reachable_holds float_repr float_eq_int w Hreach u) as [l Hl].
    rewrite (add_to_cart_holds float_repr w u l p Hl). cbn [snd].
    rewrite cart_row_finish, insert_or_replace_lookup.
    eexists. split; [reflexivity |]. cbn [cart_id].
    pose proof (new_rowid_above_seq (stored w)). lia.
  - assert (Hreach' : reachable float_repr float_eq_int (snd (delete_cart v w)))
      by apply (reachable_call float_repr float_eq_int w (DeleteCart v) Hreach).
    destruct (reachable_holds float_repr float_eq_int _ Hreach' u) as [l Hl].
    rewrite (add_to_cart_holds float_repr _ u l p Hl). cbn [snd].
    rewrite cart_row_finish, insert_or_replace_lookup.
    eexists. split; [reflexivity |]. cbn [cart_id].
    pose proof (new_rowid_above_seq (stored (snd (delete_cart v w)))) as Hnew.
    assert (Hseq : seq (stored (snd (delete_cart v w))) = seq (stored w))
      by now rewrite delete_cart_run.
    lia.
Qed.

Lemma ids_never_reused_witness :
  reachable repr_lexeme never_eq
    (after repr_lexeme never_eq (AddToCart "alice" 1) initial_world)
  /\ cart_row (after repr_lexeme never_eq (AddToCart "alice" 1) initial_world)
       "alice" = Some (Row 1 "[1]" 0)
  /\ exists r',
       cart_row (snd (add_to_cart repr_lexeme "alice" 2
                        (snd (delete_cart "alice"
                                (after repr_lexeme never_eq (AddToCart "alice" 1)
                                   initial_world))))) "alice" = Some r'
       /\ cart_id (Row 1 "[1]" 0) < cart_id r'.
Proof.
  assert (Hreach : reachable repr_lexeme never_eq
            (after repr_lexeme never_eq (AddToCart "alice" 1) initial_world))
    by (apply reachable_call, reachable_initial).
  assert (Hrow : cart_row (after repr_lexeme never_eq (AddToCart "alice" 1)
                             initial_world) "alice" = Some (Row 1 "[1]" 0))
    by (vm_compute; reflexivity).
  split; [exact Hreach |]. split; [exact Hrow |].
  exact (proj2 (ids_never_reused repr_lexeme never_eq _ "alice" "alice" 2 _
                  Hreach Hrow)).
Defined.

(** *** Calls for different users *)

Lemma cart_data_written (w : world) (u t : string) (db : database) :
  cart_data (finish w (sql_insert_or_replace u t 0 db)) u = Some (t, 0).
Proof.
  unfold cart_data. now rewrite cart_row_finish, insert_or_replace_lookup.
Qed.

Lemma cart_data_kept (w : world) (u : string) :
  cart_data (finish w (stored w)) u = cart_data w u.
Proof. reflexivity. Qed.

(** What a call does to the cart of its user, and whether it raises,
    depends on the contents and cost stored for that user only. *)
Lemma after_local
    (float_repr : string -> string) (float_eq_int : Z -> string -> bool)
    (c : call) (w w' : world) :
  cart_data w (user_of c) = cart_data w' (user_of c) ->
  cart_data (after float_repr float_eq_int c w) (user_of c)
  = cart_data (after float_repr float_eq_int c w') (user_of c)
  /\ raised float_repr float_eq_int c w = raised float_repr float_eq_int c w'.
Proof.
  intros Hdata.
  assert (Hrows : (cart_row w (user_of c) = None /\ cart_row w' (user_of c) = None)
                  \/ exists r r', cart_row w (user_of c) = Some r
                                  /\ cart_row w' (user_of c) = Some r'
                                  /\ contents r = contents r').
  { unfold cart_data in Hdata.
    destruct (cart_row w (user_of c)) as [r|], (cart_row w' (user_of c)) as [r'|];
      try discriminate; [right | now left].
    injection Hdata as Hc _. now exists r, r'. }
  destruct c as [u|u p|u p|u]; cbn [after raised user_of] in *.
  - rewrite !get_cart_run. cbn [fst snd]. rewrite !cart_data_kept.
    split; [exact Hdata |].
    destruct Hrows as [[-> ->] | (r & r' & -> & -> & ->)]; reflexivity.
  - rewrite !add_to_cart_run.
    destruct Hrows as [[-> ->] | (r & r' & -> & -> & ->)].
    + cbn [fst snd]. now rewrite !cart_data_written.
    + destruct (json_loads (contents r')) as [[]|]; cbn [fst snd];
        rewrite ?cart_data_written, ?cart_data_kept; auto.
  - rewrite !remove_from_cart_run.
    destruct Hrows as [[-> ->] | (r & r' & -> & -> & ->)].
    + cbn [fst snd]. rewrite !cart_data_kept. auto.
    + destruct (json_loads (contents r')) as [[| | | | |items|]|]; cbn [fst snd];
        rewrite ?cart_data_kept; auto.
      destruct (existsb _ items); cbn [fst snd]; rewrite ?cart_data_kept; auto.
      destruct (list_remove _ p items); cbn [fst snd];
        rewrite ?cart_data_written, ?cart_data_kept; auto.
  - rewrite !delete_cart_run. cbn [fst snd]. split; [| reflexivity].
    unfold cart_data. now rewrite !cart_row_finish, !delete_lookup.
Qed.

(** What a call gives its caller depends on the contents and cost stored
    for its user only. *)
Lemma result_local
    (float_repr : string -> string) (float_eq_int : Z -> string -> bool)
    (c : call) (w w' : world) :
  cart_data w (user_of c) = cart_data w' (user_of c) ->
  result float_repr float_eq_int c w = result float_repr float_eq_int c w'.
Proof.
  intros Hdata.
  assert (Hrows : (cart_row w (user_of c) = None /\ cart_row w' (user_of c) = None)
                  \/ exists r r', cart_row w (user_of c) = Some r
                                  /\ cart_row w' (user_of c) = Some r'
                                  /\ contents r = contents r').
  { unfold cart_data in Hdata.
    destruct (cart_row w (user_of c)) as [r|], (cart_row w' (user_of c)) as [r'|];
      try discriminate; [right | now left].
    injection Hdata as Hc _. now exists r, r'. }
  destruct c as [u|u p|u p|u]; cbn [result user_of] in *.
  - rewrite !get_cart_run. cbn [fst].
    destruct Hrows as [[-> ->] | (r & r' & -> & -> & ->)]; reflexivity.
  - rewrite !add_to_cart_run.
    destruct Hrows as [[-> ->] | (r & r' & -> & -> & ->)]; [reflexivity |].
    destruct (json_loads (contents r')) as [[]|]; reflexivity.
  - rewrite !remove_from_cart_run.
    destruct Hrows as [[-> ->] | (r & r' & -> & -> & ->)]; [reflexivity |].
    destruct (json_loads (contents r')) as [[| | | | |items|]|]; try reflexivity.
    destruct (existsb _ items); [| reflexivity].
    destruct (list_remove _ p items); reflexivity.
  - now rewrite !delete_cart_run.
Qed.

(** The exception of a call is the exception of its result. *)
Lemma raised_result
    (float_repr : string -> string) (float_eq_int : Z -> string -> bool)
    (c : call) (w : world) :
  raised float_repr float_eq_int c w
  = exn_of (result float_repr float_eq_int c w).
Proof.
  destruct c as [u|u p|u p|u]; cbn [raised result]; [reflexivity | | |].
  - now destruct (fst (add_to_cart float_repr u p w)).
  - now destruct (fst (remove_from_cart float_repr float_eq_int u p w)).
  - now destruct (fst (delete_cart u w)).
Qed.

(** A call keeps two worlds that store the same data for every user that
    way. *)
Lemma after_same_data
    (float_repr : string -> string) (float_eq_int : Z -> string -> bool)
    (c : call) (w w' : world) :
  same_data w w' ->
  same_data (after float_repr float_eq_int c w)
            (after float_repr float_eq_int c w').
Proof.
  intros Hsame x.
  destruct (decide (user_of c = x)) as [<- | Hx].
  - apply after_local, Hsame.
  - unfold cart_data. rewrite !after_other by exact Hx. apply Hsame.
Qed.

(** X17. Calls for different users commute on everything but the ids.
    Each of the two calls gives its caller the same in either order: the
    same value returned (the cart, for [get_cart]) or the same exception
    raised.  After the two calls every user has the same contents and
    cost in either order, and any third call gives its caller the same
    and leaves the same contents and cost again.  (The ids differ: each
    write takes the next one.) *)
Theorem calls_for_different_users_commute
    (float_repr : string -> string) (float_eq_int : Z -> string -> bool)
    (c1 c2 : call) (w : world) :
  user_of c1 <> user_of c2 ->
  result float_repr float_eq_int c1 (after float_repr float_eq_int c2 w)
  = result float_repr float_eq_int c1 w
  /\ result float_repr float_eq_int c2 (after float_repr float_eq_int c1 w)
     = result float_repr float_eq_int c2 w
  /\ same_data (after float_repr float_eq_int c2
                  (after float_repr float_eq_int c1 w))
               (after float_repr float_eq_int c1
                  (after float_repr float_eq_int c2 w))
  /\ (forall c : call,
        result float_repr float_eq_int c
          (after float_repr float_eq_int c2 (after float_repr float_eq_int c1 w))
        = result float_repr float_eq_int c
            (after float_repr float_eq_int c1 (after float_repr float_eq_int c2 w))
        /\ same_data
             (after float_repr float_eq_int c
                (after float_repr float_eq_int c2
                   (after float_repr float_eq_int c1 w)))
             (after float_repr float_eq_int c
                (after float_repr float_eq_int c1
                   (after float_repr float_eq_int c2 w)))).
Proof.
  intros Hne.
  assert (Hframe : forall c w0 x, user_of c <> x ->
            cart_data (after float_repr float_eq_int c w0) x = cart_data w0 x).
  { intros c w0 x Hx. unfold cart_data. now rewrite after_other. }
  assert (H1 : cart_data (after float_repr float_eq_int c2 w) (user_of c1)
               = cart_data w (user_of c1)) by (apply Hframe; congruence).
  assert (H2 : cart_data (after float_repr float_eq_int c1 w) (user_of c2)
               = cart_data w (user_of c2)) by (apply Hframe; congruence).
  destruct (after_local float_repr float_eq_int c1 _ _ H1) as [Hd1 _].
  destruct (after_local float_repr float_eq_int c2 _ _ H2) as [Hd2 _].
  assert (Hsame : same_data (after float_repr float_eq_int c2
                               (after float_repr float_eq_int c1 w))
                            (after float_repr float_eq_int c1
                               (after float_repr float_eq_int c2 w))).
  { intros x.
    destruct (decide (user_of c1 = x)) as [<- | Hx1].
    - rewrite Hd1. apply Hframe. congruence.
    - destruct (decide (user_of c2 = x)) as [<- | Hx2].
      + rewrite Hd2. symmetry. now apply Hframe.
      + now rewrite !Hframe. }
  split; [now apply result_local |].
  split; [now apply result_local |].
  split; [exact Hsame |].
  intros c. split; [apply result_local, Hsame | now apply after_same_data].
Qed.

Lemma calls_for_different_users_commute_witness :
  user_of (GetCart "alice") <> user_of (AddToCart "bob" 1)
  /\ result repr_lexeme never_eq (GetCart "alice") (one_cart "alice" "[5]")
     = Returned (PList [PInt 5])
  /\ result repr_lexeme never_eq (GetCart "alice")
       (after repr_lexeme never_eq (AddToCart "bob" 1) (one_cart "alice" "[5]"))
     = result repr_lexeme never_eq (GetCart "alice") (one_cart "alice" "[5]")
  /\ result repr_lexeme never_eq (AddToCart "bob" 1)
       (after repr_lexeme never_eq (GetCart "alice") (one_cart "alice" "[5]"))
     = result repr_lexeme never_eq (AddToCart "bob" 1) (one_cart "alice" "[5]")
  /\ same_data
       (after repr_lexeme never_eq (AddToCart "bob" 1)
          (after repr_lexeme never_eq (GetCart "alice") (one_cart "alice" "[5]")))
       (after repr_lexeme never_eq (GetCart "alice")
          (after repr_lexeme never_eq (AddToCart "bob" 1)
             (one_cart "alice" "[5]"))).
Proof.
  assert (Hne : user_of (GetCart "alice") <> user_of (AddToCart "bob" 1))
    by (vm_compute; discriminate).
  split; [exact Hne |]. split; [vm_compute; reflexivity |].
  destruct (calls_for_different_users_commute repr_lexeme never_eq
              (GetCart "alice") (AddToCart "bob" 1)
              (one_cart "alice" "[5]") Hne) as (Hr1 & Hr2 & Hsame & _).
  split; [exact Hr1 |]. split; [exact Hr2 | exact Hsame].
Defined.

(** *** Calls that raise *)

(** X18. A call that raises writes nothing: whatever the operation and
    the state, the stored state after a failed call is the stored state
    before it. *)
Theorem failed_call_writes_nothing
    (float_repr : string -> string) (float_eq_int : Z -> string -> bool)
    (c : call) (w : world) (e : exn) :
  raised float_repr float_eq_int c w = Some e ->
  stored (after float_repr float_eq_int c w) = stored w.
Proof.
  destruct c as [u|u p|u p|u]; cbn [raised after].
  - now rewrite get_cart_run.
  - rewrite add_to_cart_run.
    destruct (match cart_row w u with
              | None => Some (PList [])
              | Some r => json_loads (contents r)
              end) as [[]|]; cbn [fst snd exn_of]; try discriminate; reflexivity.
  - rewrite remove_from_cart_run.
    destruct (cart_row w u) as [r|]; [| reflexivity].
    destruct (json_loads (contents r)) as [[| | | | |items|]|];
      cbn [fst snd exn_of]; try discriminate; try reflexivity.
    destruct (existsb _ items); [| reflexivity].
    destruct (list_remove _ p items); cbn [fst snd exn_of];
      [discriminate | reflexivity].
  - rewrite delete_cart_run. discriminate.
Qed.

Lemma failed_call_writes_nothing_witness :
  raised repr_lexeme never_eq (AddToCart "alice" 3) (one_cart "alice" "[1, 2")
  = Some JSONDecodeError
  /\ stored (after repr_lexeme never_eq (AddToCart "alice" 3)
               (one_cart "alice" "[1, 2"))
     = stored (one_cart "alice" "[1, 2").
Proof.
  assert (Hr : raised repr_lexeme never_eq (AddToCart "alice" 3)
                 (one_cart "alice" "[1, 2") = Some JSONDecodeError)
    by (vm_compute; reflexivity).
  split; [exact Hr |].
  exact (failed_call_writes_nothing repr_lexeme never_eq (AddToCart "alice" 3)
           (one_cart "alice" "[1, 2") JSONDecodeError Hr).
Defined.
